(** * Authorization layer of the OpenVPN 3 Linux client

    A shallow embedding of

    - [connection-creds.hpp]: [DBusConnectionCreds::GetUID],
      [DBusCredentialsException] and the access control list of
      [DBusCredentials] ([GrantAccess], [RevokeAccess], [CheckACL],
      [CheckOwnerAccess], [check_acl]);
    - [proxy-sessionmgr.hpp]: [LogEvent] ([reset], [Parse]),
      [ReadyException] and [OpenVPN3SessionProxy::Ready].

    Methods are functions in a small monad: they read and write the object
    they are called on, they may throw a C++ exception, and they may call
    out over D-Bus ([DBusProxy::Call]).  A D-Bus call is a node of the
    computation, answered by whoever runs it, so that "this method never
    asks the bus daemon" is a property of the computation itself. *)

From Stdlib Require Import List String Ascii NArith Bool Lia.
From Stdlib Require Import ZArith.
Import ListNotations.

Local Open Scope string_scope.
Local Open Scope N_scope.

(** ** Values that cross the bus *)

(** [uid_t] is an unsigned 32-bit integer.  The code only compares uids,
    it never computes with them, so no wrap-around arises. *)
Abbreviation uid_t := N (only parsing).

#[local] Set Warnings "-register-all".

(** The part of GLib's [GVariant] the two files use: [u], [s], tuples and
    dictionaries [a{sv}]. *)
Inductive GVariant : Type :=
| GV_uint32 (v : N)
| GV_string (s : string)
| GV_tuple (items : list GVariant)
| GV_dict (entries : list (string * GVariant)).

(** The C string a [char] pointer to [chars] denotes: the characters before
    the first NUL.  It is what a C function sees of [s.c_str()], and what
    [std::string(p)] holds when built from a pointer [p]. *)
Fixpoint c_str (chars : string) : string :=
  match chars with
  | EmptyString => EmptyString
  | String c rest =>
      if Ascii.eqb c Ascii.zero then EmptyString
      else String c (c_str rest)
  end.

(** ** Exceptions *)

(** [ReadyException] derives from [DBusException] (its class name is fixed
    to "ReadyException"); [DBusCredentialsException] derives from
    [std::exception] only. *)
Inductive exception : Type :=
| DBusException (classname errorstr : string)
| ReadyException (errorstr : string)
| DBusCredentialsException (requester : uid_t) (quarkdomain error : string).

(** The C++ class an exception object belongs to: what a [catch] clause
    dispatches on. *)
Inductive exception_class : Type :=
| class_DBusException
| class_ReadyException
| class_DBusCredentialsException.

Definition class_of (e : exception) : exception_class :=
  match e with
  | DBusException _ _ => class_DBusException
  | ReadyException _ => class_ReadyException
  | DBusCredentialsException _ _ _ => class_DBusCredentialsException
  end.

(** [catch (C& excp)] takes an exception of class [C] or of a class
    derived from [C]. *)
Definition caught_by (handler : exception_class) (e : exception) : bool :=
  match handler, class_of e with
  | class_DBusException, (class_DBusException | class_ReadyException) => true
  | class_ReadyException, class_ReadyException => true
  | class_DBusCredentialsException, class_DBusCredentialsException => true
  | _, _ => false
  end.

(** [DBusException::getRawError]: the error text without decoration. *)
Definition getRawError (e : exception) : string :=
  match e with
  | DBusException _ errorstr => errorstr
  | ReadyException errorstr => errorstr
  | DBusCredentialsException _ _ error => error
  end.

(** ** Computations *)

(** What [DBusProxy::Call] hands back: it throws a [DBusException], or it
    returns a [GVariant*], which may be [NULL]. *)
Inductive call_result : Type :=
| CallThrew (classname errorstr : string)
| CallReturned (res : option GVariant).

(** A computation ends with a result, runs into behaviour the C++ source
    leaves undefined, or performs a D-Bus call and goes on with the
    answer. *)
Inductive prog (R : Type) : Type :=
| Done (r : R)
| Undefined
| Invoke (method : string) (params : option GVariant)
         (k : call_result -> prog R).

Arguments Done {R} r.
Arguments Undefined {R}.
Arguments Invoke {R} method params k.

Fixpoint prog_bind {R R' : Type} (p : prog R) (f : R -> prog R') : prog R' :=
  match p with
  | Done r => f r
  | Undefined => Undefined
  | Invoke method params k =>
      Invoke method params (fun answer => prog_bind (k answer) f)
  end.

(** How a method call ends. *)
Inductive outcome (A : Type) : Type :=
| Returned (a : A)
| Thrown (e : exception).

Arguments Returned {A} a.
Arguments Thrown {A} e.

(** A method of an object of type [S].  The object is handed on when the
    method throws, as a C++ object outlives an exception. *)
Definition M (S A : Type) : Type := S -> prog (outcome A * S).

Section Monad.
Context {S : Type}.

Definition ret {A} (a : A) : M S A := fun this => Done (Returned a, this).

Definition throw {A} (e : exception) : M S A :=
  fun this => Done (Thrown e, this).

Definition undefined {A} : M S A := fun _ => Undefined.

Definition bind {A B} (m : M S A) (f : A -> M S B) : M S B :=
  fun this =>
    prog_bind (m this)
      (fun r => match r with
                | (Returned a, this') => f a this'
                | (Thrown e, this') => Done (Thrown e, this')
                end).

Definition get : M S S := fun this => Done (Returned this, this).

Definition modify (f : S -> S) : M S unit :=
  fun this => Done (Returned tt, f this).

(** [try { body } catch (C& excp) { handler }] *)
Definition try_catch {A} (body : M S A) (C : exception_class)
           (handler : exception -> M S A) : M S A :=
  fun this =>
    prog_bind (body this)
      (fun r => match r with
                | (Returned a, this') => Done (Returned a, this')
                | (Thrown e, this') =>
                    if caught_by C e then handler e this'
                    else Done (Thrown e, this')
                end).

(** [DBusProxy::Call(method, params)] *)
Definition Call (method : string) (params : option GVariant)
  : M S (option GVariant) :=
  fun this =>
    Invoke method params
      (fun answer =>
         match answer with
         | CallThrew classname errorstr =>
             Done (Thrown (DBusException classname errorstr), this)
         | CallReturned res => Done (Returned res, this)
         end).

(** The macros [THROW_DBUSEXCEPTION] and [THROW_READYEXCEPTION]; file,
    line and function name are left out. *)
Definition THROW_DBUSEXCEPTION {A} (classname fault_data : string) : M S A :=
  throw (DBusException classname fault_data).

Definition THROW_READYEXCEPTION {A} (fault_data : string) : M S A :=
  throw (ReadyException fault_data).
End Monad.

Declare Scope method_scope.
Delimit Scope method_scope with method.
Notation "x <- m ;; k" := (bind m (fun x => k))
  (at level 61, m at next level, right associativity) : method_scope.
Notation "m ;; k" := (bind m (fun _ => k))
  (at level 61, right associativity) : method_scope.
Local Open Scope method_scope.

(** A range-based [for] loop whose body may leave the enclosing function
    with [return]. *)
Inductive flow : Type :=
| Next
| Exit.

Fixpoint foreach {S T : Type} (range : list T) (body : T -> M S flow)
  : M S flow :=
  match range with
  | [] => ret Next
  | x :: rest =>
      f <- body x ;;
      match f with
      | Next => foreach rest body
      | Exit => ret Exit
      end
  end.

(** ** Running a computation against a bus *)

(** The other end of the bus: it answers every call. *)
Definition daemon : Type := string -> option GVariant -> call_result.

Fixpoint run {R : Type} (d : daemon) (p : prog R) : option R :=
  match p with
  | Done r => Some r
  | Undefined => None
  | Invoke method params k => run d (k (d method params))
  end.

(** The calls made during a run, oldest first, each with its answer. *)
Fixpoint calls {R : Type} (d : daemon) (p : prog R)
  : list (string * option GVariant * call_result) :=
  match p with
  | Done _ | Undefined => []
  | Invoke method params k =>
      (method, params, d method params) :: calls d (k (d method params))
  end.

(** ** connection-creds.hpp *)

(** [g_variant_new("(s)", str.c_str())] *)
Definition g_variant_new_s (str : string) : GVariant :=
  GV_tuple [GV_string (c_str str)].

(** [g_variant_get(result, "(u)", &ret)].  On a [NULL] result or one of
    another type GLib writes nothing and [ret] stays uninitialised. *)
Definition g_variant_get_u {S} (result : option GVariant) : M S N :=
  match result with
  | Some (GV_tuple [GV_uint32 v]) => ret v
  | _ => undefined
  end.

(** [DBusConnectionCreds::GetUID] *)
Definition GetUID {S} (busname : string) : M S uid_t :=
  try_catch
    (result <- Call "GetConnectionUnixUser"
                    (Some (g_variant_new_s busname)) ;;
     g_variant_get_u result)
    class_DBusException
    (fun excp =>
       THROW_DBUSEXCEPTION "DBusConnectionCreds"
         ("Failed to retrieve UID for bus name '" ++ busname ++ "': "
          ++ getRawError excp)).

(** The members of [DBusCredentials]. *)
Record DBusCredentials : Type := mkDBusCredentials {
  owner : uid_t;
  acl_public : bool;
  acl_list : list uid_t
}.

(** The constructor [DBusCredentials(dbuscon, owner)]. *)
Definition DBusCredentials_new (owner : uid_t) : DBusCredentials :=
  {| owner := owner; acl_public := false; acl_list := [] |}.

Definition set_acl_public (b : bool) (this : DBusCredentials) :=
  {| owner := owner this; acl_public := b; acl_list := acl_list this |}.

Definition set_acl_list (l : list uid_t) (this : DBusCredentials) :=
  {| owner := owner this; acl_public := acl_public this; acl_list := l |}.

(** [acl_list.push_back(uid)] *)
Definition push_back (uid : uid_t) (this : DBusCredentials) :=
  set_acl_list (acl_list this ++ [uid]) this.

(** [acl_list.erase(std::remove(acl_list.begin(), acl_list.end(), uid),
    acl_list.end())]: every element equal to [uid] goes, the others keep
    their order. *)
Definition erase_remove (uid : uid_t) (this : DBusCredentials) :=
  set_acl_list (filter (fun e => negb (e =? uid)) (acl_list this)) this.

Definition SetPublicAccess (public_access : bool) : M DBusCredentials unit :=
  modify (set_acl_public public_access).

(** [GetAccessList], as the list of uids the [GVariant] array holds. *)
Definition GetAccessList : M DBusCredentials (list uid_t) :=
  this <- get ;; ret (acl_list this).

Definition GrantAccess (uid : uid_t) : M DBusCredentials unit :=
  this <- get ;;
  foreach (acl_list this)
    (fun acl_uid =>
       if acl_uid =? uid
       then throw (DBusCredentialsException (owner this)
                     "net.openvpn.v3.error.acl.duplicate"
                     "UID already granted access")
       else ret Next) ;;
  modify (push_back uid).

(** The loop runs over the list as it is on entry; the one iteration that
    changes the list leaves the function at once. *)
Definition RevokeAccess (uid : uid_t) : M DBusCredentials unit :=
  this <- get ;;
  f <- foreach (acl_list this)
         (fun acl_uid =>
            if acl_uid =? uid
            then modify (erase_remove uid) ;; ret Exit
            else ret Next) ;;
  match f with
  | Exit => ret tt
  | Next => throw (DBusCredentialsException (owner this)
                     "net.openvpn.v3.error.acl.nogrant"
                     "UID is not listed in access list")
  end.

Definition check_acl (sender : string) (owner_only allow_root : bool)
  : M DBusCredentials unit :=
  this <- get ;;
  if acl_public this && negb owner_only then ret tt else
  sender_uid <- GetUID sender ;;
  if sender_uid =? owner this then ret tt else
  if allow_root && (sender_uid =? 0) then ret tt else
  if owner_only
  then throw (DBusCredentialsException sender_uid
                "net.openvpn.v3.error.acl.denied" "Owner access denied")
  else
  f <- foreach (acl_list this)
         (fun acl_uid =>
            if acl_uid =? sender_uid then ret Exit else ret Next) ;;
  match f with
  | Exit => ret tt
  | Next => throw (DBusCredentialsException sender_uid
                     "net.openvpn.v3.error.acl.denied" "Access denied")
  end.

Definition CheckACL (sender : string) (allow_root : bool)
  : M DBusCredentials unit :=
  check_acl sender false allow_root.

Definition CheckOwnerAccess (sender : string) (allow_root : bool)
  : M DBusCredentials unit :=
  check_acl sender true allow_root.

(** ** proxy-sessionmgr.hpp *)

Inductive GVariantType : Type :=
| G_VARIANT_TYPE_UINT32
| G_VARIANT_TYPE_STRING.

Definition g_variant_is_of_type (value : GVariant) (type : GVariantType)
  : bool :=
  match value, type with
  | GV_uint32 _, G_VARIANT_TYPE_UINT32 => true
  | GV_string _, G_VARIANT_TYPE_STRING => true
  | _, _ => false
  end.

Fixpoint lookup_entry (entries : list (string * GVariant)) (key : string)
  : option GVariant :=
  match entries with
  | [] => None
  | (k, value) :: rest =>
      if String.eqb k key then Some value else lookup_entry rest key
  end.

(** [g_variant_lookup_value(dictionary, key, expected_type)]: the value
    stored under [key] if there is one and it has the expected type,
    [NULL] otherwise. *)
Definition g_variant_lookup_value (dictionary : GVariant) (key : string)
           (expected_type : GVariantType) : option GVariant :=
  match dictionary with
  | GV_dict entries =>
      match lookup_entry entries key with
      | Some value =>
          if g_variant_is_of_type value expected_type then Some value
          else None
      | None => None
      end
  | _ => None
  end.

(** [g_variant_get_uint32] and [g_variant_get_string] on a value that is
    [NULL] or of another type are programming errors in GLib. *)
Definition g_variant_get_uint32 {S} (value : option GVariant) : M S N :=
  match value with
  | Some (GV_uint32 v) => ret v
  | _ => undefined
  end.

(** [g_variant_get_string(value, &len)]: the characters and their number. *)
Definition g_variant_get_string {S} (value : option GVariant)
  : M S (string * N) :=
  match value with
  | Some (GV_string s) => ret (s, N.of_nat (String.length s))
  | _ => undefined
  end.

(** What [LogEvent] takes from [log-helpers.hpp], as parameters: the two
    enum types, their [UNDEFINED] enumerators, the casts from
    [unsigned int] and the two tables of names. *)
Class log_helpers : Type := {
  LogGroup : Type;
  LogCategory : Type;
  LogGroup_UNDEFINED : LogGroup;
  LogCategory_UNDEFINED : LogCategory;
  LogGroup_cast : N -> LogGroup;
  LogCategory_cast : N -> LogCategory;
  LogGroup_str : list string;
  LogCategory_str : list string
}.

(** [table.size()] and [table[v]] *)
Definition size (table : list string) : N := N.of_nat (List.length table).

Definition at_index (table : list string) (v : N) : string :=
  nth (N.to_nat v) table "".

(** A log event as the session manager publishes it in [last_log]. *)
Definition wire_record (log_group log_category : N) (log_message : string)
  : GVariant :=
  GV_dict [("log_group", GV_uint32 log_group);
           ("log_category", GV_uint32 log_category);
           ("log_message", GV_string log_message)].

Section LogEvent.
Context {helpers : log_helpers}.

Record LogEvent : Type := mkLogEvent {
  group : LogGroup;
  group_str : string;
  category : LogCategory;
  category_str : string;
  message : string
}.

Definition set_group (g : LogGroup) (str : string) (this : LogEvent) :=
  {| group := g; group_str := str;
     category := category this; category_str := category_str this;
     message := message this |}.

Definition set_category (c : LogCategory) (str : string) (this : LogEvent) :=
  {| group := group this; group_str := group_str this;
     category := c; category_str := str;
     message := message this |}.

Definition set_message (msg : string) (this : LogEvent) :=
  {| group := group this; group_str := group_str this;
     category := category this; category_str := category_str this;
     message := msg |}.

Definition reset : M LogEvent unit :=
  modify (set_group LogGroup_UNDEFINED "") ;;
  modify (set_category LogCategory_UNDEFINED "") ;;
  modify (set_message "").

Definition Parse (logevent : GVariant) : M LogEvent unit :=
  v <- g_variant_get_uint32
         (g_variant_lookup_value logevent "log_group"
            G_VARIANT_TYPE_UINT32) ;;
  (if (0 <? v) && (v <? size LogGroup_str)
   then modify (set_group (LogGroup_cast v) (at_index LogGroup_str v))
   else ret tt) ;;
  v <- g_variant_get_uint32
         (g_variant_lookup_value logevent "log_category"
            G_VARIANT_TYPE_UINT32) ;;
  (if (0 <? v) && (v <? size LogCategory_str)
   then modify (set_category (LogCategory_cast v)
                  (at_index LogCategory_str v))
   else ret tt) ;;
  sl <- g_variant_get_string
          (g_variant_lookup_value logevent "log_message"
             G_VARIANT_TYPE_STRING) ;;
  modify (set_message (c_str (fst sl))) ;;
  this <- get ;;
  if negb (snd sl =? N.of_nat (String.length (message this)))
  then THROW_DBUSEXCEPTION "OpenVPN3SessionProxy"
         "Failed retrieving log event message text (inconsistent length)"
  else ret tt.

(** The constructor [LogEvent(GVariant *status)], run on the storage of
    the new object. *)
Definition LogEvent_from (status : GVariant) : M LogEvent unit :=
  reset ;; Parse status.
End LogEvent.

(** An instance for examples, with each enum as its underlying number. *)
Definition example_helpers : log_helpers :=
  {| LogGroup := N;
     LogCategory := N;
     LogGroup_UNDEFINED := 0;
     LogCategory_UNDEFINED := 0;
     LogGroup_cast := fun v => v;
     LogCategory_cast := fun v => v;
     LogGroup_str := ["[[UNDEFINED]]"; "Master Process"; "Config Manager";
                      "Session Manager"; "Backend Starter"; "Logger";
                      "Backend Session Process"; "Client"];
     LogCategory_str := ["[[UNDEFINED]]"; "DEBUG"; "VERB2"; "VERB1"; "INFO";
                         "WARNING"; "ERROR"; "CRITICAL"; "FATAL"] |}.

(** [OpenVPN3SessionProxy::simple_call] *)
Definition simple_call {S} (method errstr : string) : M S unit :=
  res <- Call method None ;;
  match res with
  | None => THROW_DBUSEXCEPTION "OpenVPN3SessionProxy" errstr
  | Some _ => ret tt
  end.

(** [OpenVPN3SessionProxy::Ready] *)
Definition Ready {S} : M S unit :=
  try_catch
    (simple_call "Ready" "Connection not ready to connect yet")
    class_DBusException
    (fun excp => THROW_READYEXCEPTION (getRawError excp)).

(** ** Sequences of ACL operations *)

(** The calls that change the ACL of an object. *)
Inductive acl_op : Type :=
| Grant (uid : uid_t)
| Revoke (uid : uid_t)
| SetPublic (public_access : bool).

Definition apply_op (op : acl_op) : M DBusCredentials unit :=
  match op with
  | Grant uid => GrantAccess uid
  | Revoke uid => RevokeAccess uid
  | SetPublic public_access => SetPublicAccess public_access
  end.

(** The object a finished call leaves behind, whether it returned or
    threw. *)
Definition object_after {A} (p : prog (outcome A * DBusCredentials))
           (this : DBusCredentials) : DBusCredentials :=
  match p with
  | Done (_, this') => this'
  | Undefined | Invoke _ _ _ => this
  end.

(** One call after the other on the same object; an exception goes to the
    caller of that call and the next call finds the object as it was
    left. *)
Fixpoint apply_ops (ops : list acl_op) (this : DBusCredentials)
  : DBusCredentials :=
  match ops with
  | [] => this
  | op :: rest => apply_ops rest (object_after (apply_op op this) this)
  end.

(** ** What the bus daemon says about a sender *)

(** The daemon knows the sender and reports its uid. *)
Definition resolves (d : daemon) (sender : string) (uid : uid_t) : Prop :=
  d "GetConnectionUnixUser" (Some (g_variant_new_s sender))
  = CallReturned (Some (GV_tuple [GV_uint32 uid])).

(** ** Names for the errors, and a bus for examples *)

Definition duplicate_grant (this : DBusCredentials) : exception :=
  DBusCredentialsException (owner this)
    "net.openvpn.v3.error.acl.duplicate" "UID already granted access".

Definition no_such_grant (this : DBusCredentials) : exception :=
  DBusCredentialsException (owner this)
    "net.openvpn.v3.error.acl.nogrant" "UID is not listed in access list".

Definition access_denied (sender_uid : uid_t) (error : string) : exception :=
  DBusCredentialsException sender_uid "net.openvpn.v3.error.acl.denied" error.

(** What [GetUID] yields for a sender, whatever object asks. *)
Definition lookup_uid (d : daemon) (sender : string) : option (outcome uid_t) :=
  option_map fst (run d (GetUID sender tt)).

Definition inconsistent_length : exception :=
  DBusException "OpenVPN3SessionProxy"
    "Failed retrieving log event message text (inconsistent length)".

(** A daemon for examples: it knows the listed connections and their
    uids, and fails every other request. *)
Definition bus_daemon (connections : list (string * uid_t)) : daemon :=
  fun method params =>
    match params with
    | Some (GV_tuple [GV_string busname]) =>
        if String.eqb method "GetConnectionUnixUser" then
          match find (fun c => String.eqb (fst c) busname) connections with
          | Some c => CallReturned (Some (GV_tuple [GV_uint32 (snd c)]))
          | None => CallThrew "DBusProxy" "The name has no owner"
          end
        else CallThrew "DBusProxy" "Unknown method"
    | _ => CallThrew "DBusProxy" "Unknown method"
    end.

Definition lookup_failed (sender raw : string) : exception :=
  DBusException "DBusConnectionCreds"
    ("Failed to retrieve UID for bus name '" ++ sender ++ "': " ++ raw).

(** The calls that name a uid. *)
Definition names (op : acl_op) (v : uid_t) : Prop :=
  op = Grant v \/ op = Revoke v.

(** ** The rest of connection-creds.hpp *)

(** [pid_t] is a signed 32-bit integer; [g_variant_get] stores the 32 bits
    of the [u] value in it. *)
Definition pid_t_of_uint32 (v : N) : Z :=
  if v mod 2 ^ 32 <? 2 ^ 31 then Z.of_N (v mod 2 ^ 32)
  else (Z.of_N (v mod 2 ^ 32) - 2 ^ 32)%Z.

(** [g_variant_get(result, "(u)", &ret)] with [pid_t ret]. *)
Definition g_variant_get_pid {S} (result : option GVariant) : M S Z :=
  match result with
  | Some (GV_tuple [GV_uint32 v]) => ret (pid_t_of_uint32 v)
  | _ => undefined
  end.

(** [DBusConnectionCreds::GetPID] *)
Definition GetPID {S} (busname : string) : M S Z :=
  try_catch
    (result <- Call "GetConnectionUnixProcessID"
                    (Some (g_variant_new_s busname)) ;;
     g_variant_get_pid result)
    class_DBusException
    (fun excp =>
       THROW_DBUSEXCEPTION "DBusConnectionCreds"
         ("Failed to retrieve process ID for bus name '" ++ busname ++ "': "
          ++ getRawError excp)).

(** [DBusCredentialsException::SetDBusError(invocation)]: the D-Bus error
    name and the message handed back to the caller of the method, both
    passed to GLib as C strings. *)
Definition SetDBusError (e : exception) : option (string * string) :=
  match e with
  | DBusCredentialsException _ quarkdomain error =>
      Some (c_str (if String.eqb quarkdomain ""
                   then "net.openvpn.v3.error.undefined"
                   else quarkdomain),
            c_str error)
  | _ => None
  end.

(** [DBusCredentials::GetOwner] *)
Definition GetOwner : M DBusCredentials GVariant :=
  this <- get ;; ret (GV_uint32 (owner this)).

(** ** The proxies of proxy-sessionmgr.hpp and proxy-configmgr.hpp *)

(** [g_variant_new("(u)", uid)] *)
Definition g_variant_new_u (uid : uid_t) : GVariant :=
  GV_tuple [GV_uint32 uid].

(** [g_variant_get(res, "(s)", &buf); std::string ret(buf);] *)
Definition g_variant_get_s {S} (res : GVariant) : M S string :=
  match res with
  | GV_tuple [GV_string s] => ret (c_str s)
  | _ => undefined
  end.

Module OpenVPN3SessionProxy.

Definition Connect {S} : M S unit :=
  simple_call "Connect" "Failed to start a new tunnel".

Definition Restart {S} : M S unit :=
  simple_call "Restart" "Failed to restart tunnel".

Definition Disconnect {S} : M S unit :=
  simple_call "Disconnect" "Failed to disconnect tunnel".

Definition Pause {S} (reason : string) : M S unit :=
  res <- Call "Pause" (Some (g_variant_new_s reason)) ;;
  match res with
  | None => THROW_DBUSEXCEPTION "OpenVPN3SessionProxy" "Failed to pause tunnel"
  | Some _ => ret tt
  end.

Definition Resume {S} : M S unit :=
  simple_call "Resume" "Failed to resume tunnel".

Definition AccessGrant {S} (uid : uid_t) : M S unit :=
  res <- Call "AccessGrant" (Some (g_variant_new_u uid)) ;;
  match res with
  | None => THROW_DBUSEXCEPTION "OpenVPN3SessionProxy"
              "AccessGrant() call failed"
  | Some _ => ret tt
  end.

Definition AccessRevoke {S} (uid : uid_t) : M S unit :=
  res <- Call "AccessRevoke" (Some (g_variant_new_u uid)) ;;
  match res with
  | None => THROW_DBUSEXCEPTION "OpenVPN3SessionProxy"
              "AccessRevoke() call failed"
  | Some _ => ret tt
  end.

End OpenVPN3SessionProxy.

Module OpenVPN3ConfigurationProxy.

Definition GetJSONConfig {S} : M S string :=
  res <- Call "FetchJSON" None ;;
  match res with
  | None => THROW_DBUSEXCEPTION "OpenVPN3ConfigurationProxy"
              "Failed to retrieve configuration (JSON format)"
  | Some v => g_variant_get_s v
  end.

Definition GetConfig {S} : M S string :=
  res <- Call "Fetch" None ;;
  match res with
  | None => THROW_DBUSEXCEPTION "OpenVPN3ConfigurationProxy"
              "Failed to retrieve configuration"
  | Some v => g_variant_get_s v
  end.

Definition Remove {S} : M S unit :=
  res <- Call "Remove" None ;;
  match res with
  | None => THROW_DBUSEXCEPTION "OpenVPN3ConfigurationProxy"
              "Failed to delete the configuration"
  | Some _ => ret tt
  end.

Definition Seal {S} : M S unit :=
  res <- Call "Seal" None ;;
  match res with
  | None => THROW_DBUSEXCEPTION "OpenVPN3ConfigurationProxy"
              "Failed to seal the configuration"
  | Some _ => ret tt
  end.

Definition AccessGrant {S} (uid : uid_t) : M S unit :=
  res <- Call "AccessGrant" (Some (g_variant_new_u uid)) ;;
  match res with
  | None => THROW_DBUSEXCEPTION "OpenVPN3ConfigurationProxy"
              "AccessGrant() call failed"
  | Some _ => ret tt
  end.

Definition AccessRevoke {S} (uid : uid_t) : M S unit :=
  res <- Call "AccessRevoke" (Some (g_variant_new_u uid)) ;;
  match res with
  | None => THROW_DBUSEXCEPTION "OpenVPN3ConfigurationProxy"
              "AccessRevoke() call failed"
  | Some _ => ret tt
  end.

Section get_object_path.
(** Taken as given: the root path of the configuration manager (a constant
    of another header) and [DBusProxy::GetStringProperty], here with the
    object path of the proxy it is called on. *)
Context {S : Type}.
Variable OpenVPN3DBus_rootp_configuration : string.
Variable GetStringProperty : string -> string -> M S string.

(** [target[0]] of an empty [std::string] is the NUL character. *)
Definition get_object_path (target : string) : M S string :=
  if negb (Ascii.eqb (match target with
                      | String c _ => c
                      | EmptyString => Ascii.zero
                      end) "/"%char)
  then GetStringProperty
         (OpenVPN3DBus_rootp_configuration ++ "/aliases/" ++ target)
         "config_path"
  else ret target.
End get_object_path.

End OpenVPN3ConfigurationProxy.

(** The methods of the two proxies that only report success or failure. *)
Inductive proxy_method : Type :=
| session_Connect
| session_Restart
| session_Disconnect
| session_Pause (reason : string)
| session_Resume
| session_AccessGrant (uid : uid_t)
| session_AccessRevoke (uid : uid_t)
| config_Remove
| config_Seal
| config_AccessGrant (uid : uid_t)
| config_AccessRevoke (uid : uid_t).

Definition proxy_call {S} (m : proxy_method) : M S unit :=
  match m with
  | session_Connect => OpenVPN3SessionProxy.Connect
  | session_Restart => OpenVPN3SessionProxy.Restart
  | session_Disconnect => OpenVPN3SessionProxy.Disconnect
  | session_Pause reason => OpenVPN3SessionProxy.Pause reason
  | session_Resume => OpenVPN3SessionProxy.Resume
  | session_AccessGrant uid => OpenVPN3SessionProxy.AccessGrant uid
  | session_AccessRevoke uid => OpenVPN3SessionProxy.AccessRevoke uid
  | config_Remove => OpenVPN3ConfigurationProxy.Remove
  | config_Seal => OpenVPN3ConfigurationProxy.Seal
  | config_AccessGrant uid => OpenVPN3ConfigurationProxy.AccessGrant uid
  | config_AccessRevoke uid => OpenVPN3ConfigurationProxy.AccessRevoke uid
  end.

(** The D-Bus method a proxy method calls, and its parameters. *)
Definition dbus_method (m : proxy_method) : string * option GVariant :=
  match m with
  | session_Connect => ("Connect", None)
  | session_Restart => ("Restart", None)
  | session_Disconnect => ("Disconnect", None)
  | session_Pause reason => ("Pause", Some (GV_tuple [GV_string (c_str reason)]))
  | session_Resume => ("Resume", None)
  | session_AccessGrant uid | config_AccessGrant uid =>
      ("AccessGrant", Some (GV_tuple [GV_uint32 uid]))
  | session_AccessRevoke uid | config_AccessRevoke uid =>
      ("AccessRevoke", Some (GV_tuple [GV_uint32 uid]))
  | config_Remove => ("Remove", None)
  | config_Seal => ("Seal", None)
  end.

(** The constructor [LogEvent()]. *)
Definition LogEvent_new {helpers : log_helpers} : M LogEvent unit := reset.

(** The characters of a string. *)
Fixpoint characters (s : string) : list ascii :=
  match s with
  | EmptyString => []
  | String c rest => c :: characters rest
  end.

(** * Properties *)

(** ** The monad *)

Lemma run_bind {S A B} (d : daemon) (m : M S A) (k : A -> M S B) (this : S) :
  run d (bind m k this) =
  match run d (m this) with
  | Some (Returned a, this') => run d (k a this')
  | Some (Thrown e, this') => Some (Thrown e, this')
  | None => None
  end.
Proof.
  unfold bind. generalize (m this) as p.
  induction p as [[[a | e] this'] | | method params cont IH]; simpl; auto.
Qed.

Lemma calls_bind {S A B} (d : daemon) (m : M S A) (k : A -> M S B) (this : S) :
  calls d (bind m k this) =
  (calls d (m this) ++
   match run d (m this) with
   | Some (Returned a, this') => calls d (k a this')
   | _ => []
   end)%list.
Proof.
  unfold bind. generalize (m this) as p.
  induction p as [[[a | e] this'] | | method params cont IH]; simpl; auto.
  now rewrite IH.
Qed.

(** A loop whose body either goes on to the next element or, at the first
    element that passes [test], ends with something else than "go on". *)
Lemma foreach_first_hit {S T} (test : T -> bool) (hit : M S flow)
      (range : list T) (this : S) (o : outcome flow) (this' : S) :
  hit this = Done (o, this') ->
  o <> Returned Next ->
  foreach range (fun x => if test x then hit else ret Next) this =
  Done (if existsb test range then (o, this') else (Returned Next, this)).
Proof.
  intros Hhit Ho. induction range as [| x rest IH]; simpl.
  - reflexivity.
  - unfold bind at 1. destruct (test x); simpl.
    + rewrite Hhit. simpl. destruct o as [[] |]; [congruence | reflexivity ..].
    + exact IH.
Qed.

Lemma existsb_eqb_In (uid : uid_t) (l : list uid_t) :
  existsb (fun e => e =? uid) l = true <-> In uid l.
Proof.
  rewrite existsb_exists. split.
  - intros [x [Hin Heq]]. apply N.eqb_eq in Heq. now subst.
  - intros Hin. exists uid. split; [assumption | apply N.eqb_refl].
Qed.

Lemma existsb_eqb_not_In (uid : uid_t) (l : list uid_t) :
  existsb (fun e => e =? uid) l = false <-> ~ In uid l.
Proof.
  rewrite <- existsb_eqb_In.
  now destruct (existsb (fun e => e =? uid) l).
Qed.

(** ** Grant and revoke, computed *)

Lemma GrantAccess_computed (uid : uid_t) (this : DBusCredentials) :
  GrantAccess uid this =
  Done (if existsb (fun e => e =? uid) (acl_list this)
        then (Thrown (duplicate_grant this), this)
        else (Returned tt, push_back uid this)).
Proof.
  unfold GrantAccess, bind at 1. simpl. unfold bind at 1.
  rewrite (foreach_first_hit (fun e => e =? uid) _ _ this
             (Thrown (duplicate_grant this)) this); try easy.
  now destruct (existsb _ _).
Qed.

Lemma RevokeAccess_computed (uid : uid_t) (this : DBusCredentials) :
  RevokeAccess uid this =
  Done (if existsb (fun e => e =? uid) (acl_list this)
        then (Returned tt, erase_remove uid this)
        else (Thrown (no_such_grant this), this)).
Proof.
  unfold RevokeAccess, bind at 1. simpl. unfold bind at 1.
  rewrite (foreach_first_hit (fun e => e =? uid) _ _ this
             (Returned Exit) (erase_remove uid this)); try easy.
  now destruct (existsb _ _).
Qed.

Lemma filter_out_absent (uid : uid_t) (l : list uid_t) :
  ~ In uid l -> filter (fun e => negb (e =? uid)) l = l.
Proof.
  induction l as [| x l IH]; simpl; intros Hnot.
  - reflexivity.
  - destruct (N.eqb_spec x uid) as [-> | Hne]; simpl.
    + exfalso. apply Hnot. now left.
    + rewrite IH; [reflexivity |]. intros Hin. apply Hnot. now right.
Qed.

Lemma apply_op_acl_list (op : acl_op) (this : DBusCredentials) :
  let l := acl_list this in
  let l' := acl_list (object_after (apply_op op this) this) in
  l' = l \/
  (exists uid, op = Grant uid /\ ~ In uid l /\ l' = (l ++ [uid])%list) \/
  (exists uid, op = Revoke uid /\ l' = filter (fun e => negb (e =? uid)) l).
Proof.
  destruct op as [uid | uid | b]; simpl.
  - rewrite GrantAccess_computed.
    destruct (existsb _ _) eqn:E; simpl; [now left |].
    right; left. exists uid. now rewrite <- existsb_eqb_not_In.
  - rewrite RevokeAccess_computed.
    destruct (existsb _ _) eqn:E; simpl; [| now left].
    right; right. now exists uid.
  - now left.
Qed.

Lemma apply_op_owner (op : acl_op) (this : DBusCredentials) :
  owner (object_after (apply_op op this) this) = owner this.
Proof.
  destruct op as [uid | uid | b]; simpl;
    rewrite ?GrantAccess_computed, ?RevokeAccess_computed;
    try destruct (existsb _ _); reflexivity.
Qed.

Lemma apply_op_NoDup (op : acl_op) (this : DBusCredentials) :
  NoDup (acl_list this) ->
  NoDup (acl_list (object_after (apply_op op this) this)).
Proof.
  intros Hnd.
  destruct (apply_op_acl_list op this)
    as [-> | [(uid & _ & Hnot & ->) | (uid & _ & ->)]].
  - assumption.
  - apply NoDup_app; [assumption | repeat constructor; easy |].
    intros x Hx [<- | []]. contradiction.
  - now apply NoDup_filter.
Qed.

Lemma apply_op_finishes (op : acl_op) (this : DBusCredentials) :
  exists o, apply_op op this = Done (o, object_after (apply_op op this) this).
Proof.
  destruct op as [uid | uid | b]; simpl;
    rewrite ?GrantAccess_computed, ?RevokeAccess_computed;
    try destruct (existsb _ _); simpl; eexists; reflexivity.
Qed.

Lemma apply_ops_NoDup (ops : list acl_op) (this : DBusCredentials) :
  NoDup (acl_list this) -> NoDup (acl_list (apply_ops ops this)).
Proof.
  revert this. induction ops as [| op rest IH]; simpl; intros this Hnd.
  - assumption.
  - apply IH. now apply apply_op_NoDup.
Qed.

Lemma apply_ops_owner (ops : list acl_op) (this : DBusCredentials) :
  owner (apply_ops ops this) = owner this.
Proof.
  revert this. induction ops as [| op rest IH]; simpl; intros this.
  - reflexivity.
  - rewrite IH. apply apply_op_owner.
Qed.

(** ** C3 *)

(** C3, the code at the failing input: on a new object owned by uid 1000,
    [GrantAccess(1000)] does not throw the duplicate-grant error; it
    returns, and the owner's uid is in the granted list afterwards, where
    the comment of [GetAccessList] says that the owner UID is not
    enlisted. *)
Lemma owner_grant_is_accepted :
  GrantAccess 1000 (DBusCredentials_new 1000)
  = Done (Returned tt,
          {| owner := 1000; acl_public := false; acl_list := [1000] |})
  /\ GrantAccess 1000 (DBusCredentials_new 1000)
     <> Done (Thrown (duplicate_grant (DBusCredentials_new 1000)),
              DBusCredentials_new 1000)
  /\ In 1000 (acl_list (apply_ops [Grant 1000] (DBusCredentials_new 1000))).
Proof.
  split; [reflexivity |]. split; [discriminate |]. simpl. now left.
Qed.

(** ** C4 *)

(** C4: [GrantAccess] of a uid that is in the granted list throws the
    duplicate-grant error, [RevokeAccess] of a uid that is not in it throws
    the no-such-grant error, and either call leaves the object, and so its
    granted list, as it was. *)
Theorem failed_grant_or_revoke_changes_nothing
        (this : DBusCredentials) (uid : uid_t) :
  (In uid (acl_list this) ->
   GrantAccess uid this
   = Done (Thrown (DBusCredentialsException (owner this)
                     "net.openvpn.v3.error.acl.duplicate"
                     "UID already granted access"), this)) /\
  (~ In uid (acl_list this) ->
   RevokeAccess uid this
   = Done (Thrown (DBusCredentialsException (owner this)
                     "net.openvpn.v3.error.acl.nogrant"
                     "UID is not listed in access list"), this)).
Proof.
  rewrite GrantAccess_computed, RevokeAccess_computed. split; intros H.
  - apply existsb_eqb_In in H. now rewrite H.
  - apply existsb_eqb_not_In in H. now rewrite H.
Qed.

Lemma failed_grant_or_revoke_changes_nothing_witness :
  GrantAccess 2000 (mkDBusCredentials 1000 false [2000; 2001])
  = Done (Thrown (DBusCredentialsException 1000
                    "net.openvpn.v3.error.acl.duplicate"
                    "UID already granted access"),
          mkDBusCredentials 1000 false [2000; 2001])
  /\ RevokeAccess 3000 (mkDBusCredentials 1000 false [2000; 2001])
     = Done (Thrown (DBusCredentialsException 1000
                       "net.openvpn.v3.error.acl.nogrant"
                       "UID is not listed in access list"),
             mkDBusCredentials 1000 false [2000; 2001]).
Proof.
  split.
  - apply (proj1 (failed_grant_or_revoke_changes_nothing
                    (mkDBusCredentials 1000 false [2000; 2001]) 2000)).
    simpl. now left.
  - apply (proj2 (failed_grant_or_revoke_changes_nothing
                    (mkDBusCredentials 1000 false [2000; 2001]) 3000)).
    simpl. intros [H | [H | []]]; discriminate.
Defined.

(** ** C5 *)

(** C5: on a granted list without duplicates, granting a uid that is not in
    the list returns, and revoking the uid then returns and leaves exactly
    the object the grant found: the same uids in the same order. *)
Theorem grant_then_revoke_restores (this : DBusCredentials) (uid : uid_t) :
  NoDup (acl_list this) ->
  ~ In uid (acl_list this) ->
  GrantAccess uid this = Done (Returned tt, push_back uid this) /\
  acl_list (push_back uid this) = (acl_list this ++ [uid])%list /\
  RevokeAccess uid (push_back uid this) = Done (Returned tt, this) /\
  (GrantAccess uid ;; RevokeAccess uid) this = Done (Returned tt, this).
Proof.
  intros _ Hnot.
  assert (Hgrant : GrantAccess uid this
                   = Done (Returned tt, push_back uid this)).
  { rewrite GrantAccess_computed.
    apply existsb_eqb_not_In in Hnot. now rewrite Hnot. }
  assert (Hrevoke : RevokeAccess uid (push_back uid this)
                    = Done (Returned tt, this)).
  { rewrite RevokeAccess_computed.
    assert (Hin : In uid (acl_list (push_back uid this))).
    { simpl. rewrite in_app_iff. right. now left. }
    apply existsb_eqb_In in Hin. rewrite Hin.
    unfold erase_remove, set_acl_list. simpl.
    rewrite filter_app, (filter_out_absent uid _ Hnot). simpl.
    rewrite N.eqb_refl. simpl. rewrite app_nil_r.
    now destruct this. }
  repeat split; try assumption.
  unfold bind. rewrite Hgrant. simpl. exact Hrevoke.
Qed.

Lemma grant_then_revoke_restores_witness :
  (GrantAccess 2000 ;; RevokeAccess 2000)
    (mkDBusCredentials 1000 true [3000; 0; 4000])
  = Done (Returned tt, mkDBusCredentials 1000 true [3000; 0; 4000]).
Proof.
  apply (grant_then_revoke_restores
           (mkDBusCredentials 1000 true [3000; 0; 4000]) 2000).
  - simpl. repeat constructor; simpl; intuition discriminate.
  - simpl. intuition discriminate.
Defined.

(** ** C6 *)

(** C6: after any sequence of [GrantAccess], [RevokeAccess] (and
    [SetPublicAccess]) calls on a new object, whose granted list is empty,
    no uid occurs twice in the granted list. *)
Theorem granted_list_has_no_duplicates (o : uid_t) (ops : list acl_op) :
  NoDup (acl_list (apply_ops ops (DBusCredentials_new o))).
Proof.
  apply apply_ops_NoDup. simpl. constructor.
Qed.

(** ** The authorization check, run against a bus *)

Lemma run_GetUID {S} (d : daemon) (sender : string) (this : S) :
  run d (GetUID sender this) =
  match d "GetConnectionUnixUser" (Some (g_variant_new_s sender)) with
  | CallThrew _ raw => Some (Thrown (lookup_failed sender raw), this)
  | CallReturned (Some (GV_tuple [GV_uint32 v])) => Some (Returned v, this)
  | CallReturned _ => None
  end.
Proof.
  unfold GetUID, try_catch, bind, Call. simpl.
  destruct (d _ _) as [classname raw | res]; simpl; [reflexivity |].
  destruct res as [[v | s | [| [v | s | items | entries] [| second rest]]
                   | entries] |]; reflexivity.
Qed.

Lemma calls_GetUID {S} (d : daemon) (sender : string) (this : S) :
  calls d (GetUID sender this) =
  [("GetConnectionUnixUser", Some (g_variant_new_s sender),
    d "GetConnectionUnixUser" (Some (g_variant_new_s sender)))].
Proof.
  unfold GetUID, try_catch, bind, Call. simpl. f_equal.
  destruct (d _ _) as [classname raw | res]; simpl; [reflexivity |].
  destruct res as [[v | s | [| [v | s | items | entries] [| second rest]]
                   | entries] |]; reflexivity.
Qed.

Lemma run_GetUID_lookup {S} (d : daemon) (sender : string) (this : S) :
  run d (GetUID sender this) =
  option_map (fun o => (o, this)) (lookup_uid d sender).
Proof.
  unfold lookup_uid. rewrite !run_GetUID.
  destruct (d _ _) as [classname raw | res]; simpl; [reflexivity |].
  destruct res as [[v | s | [| [v | s | items | entries] [| second rest]]
                   | entries] |]; reflexivity.
Qed.

Lemma run_check_acl (d : daemon) (sender : string)
      (owner_only allow_root : bool) (this : DBusCredentials) :
  run d (check_acl sender owner_only allow_root this) =
  if acl_public this && negb owner_only then Some (Returned tt, this) else
  match lookup_uid d sender with
  | Some (Returned sender_uid) =>
      Some (if sender_uid =? owner this then Returned tt
            else if allow_root && (sender_uid =? 0) then Returned tt
            else if owner_only
                 then Thrown (access_denied sender_uid "Owner access denied")
            else if existsb (fun e => e =? sender_uid) (acl_list this)
                 then Returned tt
            else Thrown (access_denied sender_uid "Access denied"),
            this)
  | Some (Thrown e) => Some (Thrown e, this)
  | None => None
  end.
Proof.
  unfold check_acl. rewrite run_bind. simpl.
  destruct (acl_public this && negb owner_only); [reflexivity |].
  rewrite run_bind, run_GetUID_lookup.
  destruct (lookup_uid d sender) as [[sender_uid | e] |]; simpl;
    try reflexivity.
  destruct (sender_uid =? owner this); [reflexivity |].
  destruct (allow_root && (sender_uid =? 0)); [reflexivity |].
  destruct owner_only; [reflexivity |].
  rewrite run_bind.
  rewrite (foreach_first_hit (fun e => e =? sender_uid) _ _ this
             (Returned Exit) this); try easy.
  now destruct (existsb _ _).
Qed.

Lemma calls_check_acl (d : daemon) (sender : string)
      (owner_only allow_root : bool) (this : DBusCredentials) :
  calls d (check_acl sender owner_only allow_root this) =
  if acl_public this && negb owner_only then []
  else [("GetConnectionUnixUser", Some (g_variant_new_s sender),
         d "GetConnectionUnixUser" (Some (g_variant_new_s sender)))].
Proof.
  unfold check_acl. rewrite calls_bind. simpl.
  destruct (acl_public this && negb owner_only); [reflexivity |].
  rewrite calls_bind, calls_GetUID, run_GetUID_lookup. simpl. f_equal.
  destruct (lookup_uid d sender) as [[sender_uid | e] |]; simpl;
    try reflexivity.
  destruct (sender_uid =? owner this); [reflexivity |].
  destruct (allow_root && (sender_uid =? 0)); [reflexivity |].
  destruct owner_only; [reflexivity |].
  rewrite calls_bind.
  rewrite (foreach_first_hit (fun e => e =? sender_uid) _ _ this
             (Returned Exit) this); try easy.
  now destruct (existsb _ _).
Qed.

Lemma lookup_uid_resolves (d : daemon) (sender : string) (uid : uid_t) :
  resolves d sender uid -> lookup_uid d sender = Some (Returned uid).
Proof.
  unfold resolves, lookup_uid. intros H. now rewrite run_GetUID, H.
Qed.

Lemma lookup_uid_threw (d : daemon) (sender classname raw : string) :
  d "GetConnectionUnixUser" (Some (g_variant_new_s sender))
  = CallThrew classname raw ->
  lookup_uid d sender = Some (Thrown (lookup_failed sender raw)).
Proof.
  unfold lookup_uid. intros H. now rewrite run_GetUID, H.
Qed.

(** The access list at work: the owner (uid 1000) grants uid 2000; the
    connection of uid 3000 is then refused, that of uid 2000 let in. *)
Example grant_then_check :
  let d := bus_daemon [(":1.7", 1000); (":1.8", 2000); (":1.9", 3000)] in
  let object := apply_ops [Grant 2000] (DBusCredentials_new 1000) in
  acl_list object = [2000]
  /\ run d (CheckACL ":1.9" false object)
     = Some (Thrown (DBusCredentialsException 3000
                       "net.openvpn.v3.error.acl.denied" "Access denied"),
             object)
  /\ run d (CheckACL ":1.8" false object) = Some (Returned tt, object)
  /\ calls d (CheckACL ":1.8" false object)
     = [("GetConnectionUnixUser", Some (GV_tuple [GV_string ":1.8"]),
         CallReturned (Some (GV_tuple [GV_uint32 2000])))].
Proof. repeat split. Qed.

(** ** C1 *)

(** C1: for a caller whom the bus daemon resolves to [uid], [CheckACL]
    returns exactly when the object has public access, or [uid] is the
    owner, or root is allowed and [uid] is 0, or [uid] is in the granted
    list; in every other case it throws the access-denied error, which
    carries [uid].  The object is the same afterwards. *)
Theorem CheckACL_decision (d : daemon) (this : DBusCredentials)
        (sender : string) (allow_root : bool) (uid : uid_t) :
  resolves d sender uid ->
  (run d (CheckACL sender allow_root this) = Some (Returned tt, this)
   <-> (acl_public this = true \/ uid = owner this
        \/ (allow_root = true /\ uid = 0) \/ In uid (acl_list this))) /\
  (~ (acl_public this = true \/ uid = owner this
      \/ (allow_root = true /\ uid = 0) \/ In uid (acl_list this)) ->
   run d (CheckACL sender allow_root this)
   = Some (Thrown (DBusCredentialsException uid
                     "net.openvpn.v3.error.acl.denied" "Access denied"),
           this)).
Proof.
  intros Hres. unfold CheckACL.
  rewrite run_check_acl, (lookup_uid_resolves _ _ _ Hres). simpl.
  rewrite andb_true_r, <- existsb_eqb_In.
  destruct (acl_public this); simpl; [intuition |].
  destruct (N.eqb_spec uid (owner this)) as [Howner | Howner];
    [intuition |].
  destruct allow_root; simpl.
  - destruct (N.eqb_spec uid 0) as [Hroot | Hroot]; [intuition |].
    destruct (existsb _ _); split; intuition discriminate.
  - destruct (existsb _ _); split; intuition discriminate.
Qed.

Lemma CheckACL_decision_witness :
  run (bus_daemon [(":1.7", 1000); (":1.8", 2000); (":1.9", 3000)])
      (CheckACL ":1.8" false (mkDBusCredentials 1000 false [2000]))
  = Some (Returned tt, mkDBusCredentials 1000 false [2000])
  /\ run (bus_daemon [(":1.7", 1000); (":1.8", 2000); (":1.9", 3000)])
         (CheckACL ":1.9" false (mkDBusCredentials 1000 false [2000]))
     = Some (Thrown (DBusCredentialsException 3000
                       "net.openvpn.v3.error.acl.denied" "Access denied"),
             mkDBusCredentials 1000 false [2000]).
Proof.
  split.
  - apply (proj1 (CheckACL_decision
                    (bus_daemon
                       [(":1.7", 1000); (":1.8", 2000); (":1.9", 3000)])
                    (mkDBusCredentials 1000 false [2000])
                    ":1.8" false 2000 eq_refl)).
    right; right; right. simpl. now left.
  - apply (proj2 (CheckACL_decision
                    (bus_daemon
                       [(":1.7", 1000); (":1.8", 2000); (":1.9", 3000)])
                    (mkDBusCredentials 1000 false [2000])
                    ":1.9" false 3000 eq_refl)).
    simpl. intuition discriminate.
Defined.

(** ** C2 *)

(** C2: on an object with public access, a caller whose uid is not the
    owner's and, where root is allowed, not 0, passes [CheckACL] and fails
    [CheckOwnerAccess] with the access-denied error.  What
    [CheckOwnerAccess] answers is the same whatever the public-access flag
    is set to. *)
Theorem public_access_does_not_open_owner_check
        (d : daemon) (this : DBusCredentials) (sender : string)
        (uid : uid_t) (allow_root_general allow_root_owner : bool) :
  acl_public this = true ->
  resolves d sender uid ->
  uid <> owner this ->
  (allow_root_owner = true -> uid <> 0) ->
  run d (CheckACL sender allow_root_general this) = Some (Returned tt, this) /\
  run d (CheckOwnerAccess sender allow_root_owner this)
  = Some (Thrown (DBusCredentialsException uid
                    "net.openvpn.v3.error.acl.denied" "Owner access denied"),
          this) /\
  (forall (d' : daemon) (sender' : string) (allow_root' public_access : bool),
      option_map fst
        (run d' (CheckOwnerAccess sender' allow_root'
                   (set_acl_public public_access this)))
      = option_map fst (run d' (CheckOwnerAccess sender' allow_root' this))).
Proof.
  intros Hpublic Hres Howner Hroot. unfold CheckACL, CheckOwnerAccess.
  repeat split.
  - now rewrite run_check_acl, Hpublic.
  - rewrite run_check_acl, (lookup_uid_resolves _ _ _ Hres), andb_false_r.
    apply N.eqb_neq in Howner. rewrite Howner.
    destruct allow_root_owner; simpl; [| reflexivity].
    specialize (Hroot eq_refl). apply N.eqb_neq in Hroot.
    now rewrite Hroot.
  - intros d' sender' allow_root' public_access.
    rewrite !run_check_acl, !andb_false_r. simpl.
    now destruct (lookup_uid d' sender') as [[sender_uid | e] |].
Qed.

Lemma public_access_does_not_open_owner_check_witness :
  run (bus_daemon [(":1.9", 3000)])
      (CheckACL ":1.9" false (mkDBusCredentials 1000 true [2000]))
  = Some (Returned tt, mkDBusCredentials 1000 true [2000])
  /\ run (bus_daemon [(":1.9", 3000)])
         (CheckOwnerAccess ":1.9" true (mkDBusCredentials 1000 true [2000]))
     = Some (Thrown (DBusCredentialsException 3000
                       "net.openvpn.v3.error.acl.denied"
                       "Owner access denied"),
             mkDBusCredentials 1000 true [2000]).
Proof.
  assert (H := public_access_does_not_open_owner_check
                 (bus_daemon [(":1.9", 3000)])
                 (mkDBusCredentials 1000 true [2000])
                 ":1.9" 3000 false true eq_refl eq_refl).
  destruct H as [Hgeneral [Howner _]]; [discriminate | discriminate |].
  split; assumption.
Defined.

(** ** C7 *)

(** C7: in either check ([CheckACL] is [check_acl] with [owner_only] false,
    [CheckOwnerAccess] with [owner_only] true), when the [GetUID] query the
    check makes for the sender fails, the check ends with the
    [DBusException] of [GetUID]; it does not return, so access is not
    granted. *)
Theorem failed_lookup_aborts_check
        (d : daemon) (this : DBusCredentials) (sender : string)
        (owner_only allow_root : bool) (classname raw : string) :
  In ("GetConnectionUnixUser", Some (g_variant_new_s sender),
      CallThrew classname raw)
     (calls d (check_acl sender owner_only allow_root this)) ->
  run d (check_acl sender owner_only allow_root this)
  = Some (Thrown (DBusException "DBusConnectionCreds"
                    ("Failed to retrieve UID for bus name '" ++ sender
                     ++ "': " ++ raw)), this) /\
  (forall this', run d (check_acl sender owner_only allow_root this)
                 <> Some (Returned tt, this')).
Proof.
  rewrite calls_check_acl, run_check_acl.
  destruct (acl_public this && negb owner_only); simpl; [tauto |].
  intros [Hcall | []].
  assert (Hd : d "GetConnectionUnixUser" (Some (g_variant_new_s sender))
               = CallThrew classname raw) by congruence.
  rewrite (lookup_uid_threw _ _ _ _ Hd). split; [reflexivity | discriminate].
Qed.

Lemma failed_lookup_aborts_check_witness :
  run (bus_daemon [(":1.7", 1000)])
      (CheckACL ":1.66" true (mkDBusCredentials 1000 false [2000]))
  = Some (Thrown (lookup_failed ":1.66" "The name has no owner"),
          mkDBusCredentials 1000 false [2000])
  /\ run (bus_daemon [(":1.7", 1000)])
         (CheckOwnerAccess ":1.66" true (mkDBusCredentials 1000 true [2000]))
     = Some (Thrown (lookup_failed ":1.66" "The name has no owner"),
             mkDBusCredentials 1000 true [2000]).
Proof.
  split.
  - apply (failed_lookup_aborts_check
             (bus_daemon [(":1.7", 1000)])
             (mkDBusCredentials 1000 false [2000])
             ":1.66" false true "DBusProxy" "The name has no owner").
    simpl. now left.
  - apply (failed_lookup_aborts_check
             (bus_daemon [(":1.7", 1000)])
             (mkDBusCredentials 1000 true [2000])
             ":1.66" true true "DBusProxy" "The name has no owner").
    simpl. now left.
Defined.

(** ** C10 *)

(** C10: on an object with public access, [CheckACL] is the computation
    that returns at once: it makes no D-Bus call, so no [GetUID] query, and
    run against any daemon, for any sender and either setting of
    [allow_root], it returns with the object unchanged, also for a sender
    the daemon cannot resolve. *)
Theorem public_check_makes_no_lookup
        (this : DBusCredentials) (sender : string) (allow_root : bool) :
  acl_public this = true ->
  CheckACL sender allow_root this = Done (Returned tt, this) /\
  (forall d, calls d (CheckACL sender allow_root this) = []) /\
  (forall d1 d2 sender1 sender2 allow_root1 allow_root2,
      run d1 (CheckACL sender1 allow_root1 this)
      = run d2 (CheckACL sender2 allow_root2 this)) /\
  (forall d, run d (CheckACL sender allow_root this)
             = Some (Returned tt, this)).
Proof.
  intros Hpublic.
  assert (Hdone : forall s a, CheckACL s a this = Done (Returned tt, this)).
  { intros s a. unfold CheckACL, check_acl, bind, get. simpl.
    now rewrite Hpublic. }
  repeat split; intros; now rewrite !Hdone.
Qed.

Lemma public_check_makes_no_lookup_witness :
  CheckACL ":1.66" false (mkDBusCredentials 1000 true [])
  = Done (Returned tt, mkDBusCredentials 1000 true [])
  /\ run (bus_daemon [])
         (CheckACL ":1.66" false (mkDBusCredentials 1000 true []))
     = run (bus_daemon [(":1.9", 3000)])
           (CheckACL ":1.9" true (mkDBusCredentials 1000 true [])).
Proof.
  destruct (public_check_makes_no_lookup
              (mkDBusCredentials 1000 true []) ":1.66" false eq_refl)
    as [Hdone [_ [Hsame _]]].
  split; [exact Hdone | apply Hsame].
Defined.

(** ** C8 *)

Lemma run_Ready {S} (d : daemon) (this : S) :
  run d (Ready this) =
  Some (match d "Ready" None with
        | CallThrew _ raw => Thrown (ReadyException raw)
        | CallReturned None =>
            Thrown (ReadyException "Connection not ready to connect yet")
        | CallReturned (Some _) => Returned tt
        end, this).
Proof.
  unfold Ready, try_catch, simple_call, bind, Call. simpl.
  destruct (d "Ready" None) as [classname raw | [res |]]; reflexivity.
Qed.

Lemma lookup_uid_thrown (d : daemon) (sender : string) (e : exception) :
  lookup_uid d sender = Some (Thrown e) ->
  exists raw, e = lookup_failed sender raw.
Proof.
  unfold lookup_uid. rewrite run_GetUID.
  destruct (d _ _) as [classname raw | res]; simpl.
  - intros [= <-]. now exists raw.
  - destruct res as [[v | s | [| [v | s | items | entries] [| second rest]]
                     | entries] |]; discriminate.
Qed.

Lemma run_proxy_call {S} (m : proxy_method) (d : daemon) (this : S) :
  exists classname text,
    run d (proxy_call m this) =
    Some (match d (fst (dbus_method m)) (snd (dbus_method m)) with
          | CallThrew c raw => Thrown (DBusException c raw)
          | CallReturned None => Thrown (DBusException classname text)
          | CallReturned (Some _) => Returned tt
          end, this).
Proof.
  destruct m; simpl; do 2 eexists;
    unfold OpenVPN3SessionProxy.Connect, OpenVPN3SessionProxy.Restart,
      OpenVPN3SessionProxy.Disconnect, OpenVPN3SessionProxy.Pause,
      OpenVPN3SessionProxy.Resume, OpenVPN3SessionProxy.AccessGrant,
      OpenVPN3SessionProxy.AccessRevoke, OpenVPN3ConfigurationProxy.Remove,
      OpenVPN3ConfigurationProxy.Seal,
      OpenVPN3ConfigurationProxy.AccessGrant,
      OpenVPN3ConfigurationProxy.AccessRevoke, simple_call, bind, Call,
      g_variant_new_s, g_variant_new_u;
    simpl;
    match goal with
    | |- context [d ?method ?params] =>
        destruct (d method params) as [c raw | [v |]]
    end; reflexivity.
Qed.




(** ** C9 *)

Section LogEvent_properties.
Context {helpers : log_helpers}.

(** [Parse] writes [group] and [category] only for a value inside the
    table, and always writes [message]. *)
Lemma Parse_computed (g c : N) (msg : string) (this : LogEvent) :
  Parse (wire_record g c msg) this =
  Done (if N.of_nat (String.length msg)
           =? N.of_nat (String.length (c_str msg))
        then Returned tt else Thrown inconsistent_length,
        {| group := if (0 <? g) && (g <? size LogGroup_str)
                    then LogGroup_cast g else group this;
           group_str := if (0 <? g) && (g <? size LogGroup_str)
                        then at_index LogGroup_str g else group_str this;
           category := if (0 <? c) && (c <? size LogCategory_str)
                       then LogCategory_cast c else category this;
           category_str := if (0 <? c) && (c <? size LogCategory_str)
                           then at_index LogCategory_str c
                           else category_str this;
           message := c_str msg |}).
Proof.
  unfold Parse, bind, wire_record. simpl.
  destruct ((0 <? g) && (g <? size LogGroup_str));
    destruct ((0 <? c) && (c <? size LogCategory_str)); simpl;
    destruct (_ =? _); reflexivity.
Qed.

Lemma LogEvent_from_computed (g c : N) (msg : string) (uninit : LogEvent) :
  LogEvent_from (wire_record g c msg) uninit =
  Done (if N.of_nat (String.length msg)
           =? N.of_nat (String.length (c_str msg))
        then Returned tt else Thrown inconsistent_length,
        {| group := if (0 <? g) && (g <? size LogGroup_str)
                    then LogGroup_cast g else LogGroup_UNDEFINED;
           group_str := if (0 <? g) && (g <? size LogGroup_str)
                        then at_index LogGroup_str g else "";
           category := if (0 <? c) && (c <? size LogCategory_str)
                       then LogCategory_cast c else LogCategory_UNDEFINED;
           category_str := if (0 <? c) && (c <? size LogCategory_str)
                           then at_index LogCategory_str c else "";
           message := c_str msg |}).
Proof.
  unfold LogEvent_from, bind at 1. simpl.
  now rewrite Parse_computed.
Qed.

Lemma outside_table (table : list string) (v : N) :
  v = 0 \/ size table <= v -> (0 <? v) && (v <? size table) = false.
Proof.
  intros [-> | H]; [reflexivity |].
  apply andb_false_iff. right. now apply N.ltb_ge.
Qed.

Lemma inside_table (table : list string) (v : N) :
  0 < v < size table -> (0 <? v) && (v <? size table) = true.
Proof.
  intros [H0 H1]. apply andb_true_iff. split; now apply N.ltb_lt.
Qed.

(** C9, amended: [LogEvent::Parse] never writes [UNDEFINED].  For a group
    or category whose wire value is 0 or lies outside its table, [Parse]
    leaves the field and its name as it finds them, and parses the rest
    of the record all the same: a field whose value is inside its table
    gets that value and its name from the table, the message is the text
    of the record, and whether [Parse] throws is decided by the message
    text alone.  So the field is [UNDEFINED] after [Parse] when it was
    before, and it is in every log event the constructor builds from a
    record, since the constructor calls [reset()] before [Parse]. *)
Theorem out_of_range_field_is_left_as_found
        (g c : N) (msg : string) (this uninit : LogEvent) :
  exists o ev built,
    Parse (wire_record g c msg) this = Done (o, ev) /\
    LogEvent_from (wire_record g c msg) uninit = Done (o, built) /\
    (g = 0 \/ size LogGroup_str <= g ->
     group ev = group this /\ group_str ev = group_str this /\
     (group this = LogGroup_UNDEFINED -> group ev = LogGroup_UNDEFINED) /\
     group built = LogGroup_UNDEFINED /\ group_str built = "") /\
    (c = 0 \/ size LogCategory_str <= c ->
     category ev = category this /\
     category_str ev = category_str this /\
     (category this = LogCategory_UNDEFINED ->
      category ev = LogCategory_UNDEFINED) /\
     category built = LogCategory_UNDEFINED /\ category_str built = "") /\
    (0 < g < size LogGroup_str ->
     group ev = LogGroup_cast g /\
     group_str ev = at_index LogGroup_str g /\
     group built = LogGroup_cast g /\
     group_str built = at_index LogGroup_str g) /\
    (0 < c < size LogCategory_str ->
     category ev = LogCategory_cast c /\
     category_str ev = at_index LogCategory_str c /\
     category built = LogCategory_cast c /\
     category_str built = at_index LogCategory_str c) /\
    message ev = c_str msg /\
    message built = c_str msg /\
    (o = Returned tt <->
     String.length (c_str msg) = String.length msg).
Proof.
  rewrite Parse_computed, LogEvent_from_computed.
  do 3 eexists. split; [reflexivity |]. split; [reflexivity |].
  simpl. split; [| split; [| split; [| split; [| split; [| split]]]]].
  - intros H. rewrite (outside_table _ _ H). now repeat split.
  - intros H. rewrite (outside_table _ _ H). now repeat split.
  - intros H. rewrite (inside_table _ _ H). now repeat split.
  - intros H. rewrite (inside_table _ _ H). now repeat split.
  - reflexivity.
  - reflexivity.
  - destruct (N.eqb_spec (N.of_nat (String.length msg))
                (N.of_nat (String.length (c_str msg)))) as [E | E].
    + split; [intros _ | reflexivity]. symmetry. now apply Nat2N.inj.
    + split; [discriminate |]. intros E'. now rewrite E' in E.
Qed.

(** X20: called on an object that was not reset, [Parse] leaves a field
    whose wire value is 0 or outside the table as it finds it: the object
    keeps the group or category of the event parsed before. *)
Lemma Parse_out_of_range_keeps_field
      (g c : N) (msg : string) (this : LogEvent) :
  exists o ev,
    Parse (wire_record g c msg) this = Done (o, ev) /\
    (g = 0 \/ size LogGroup_str <= g ->
     group ev = group this /\ group_str ev = group_str this) /\
    (c = 0 \/ size LogCategory_str <= c ->
     category ev = category this /\ category_str ev = category_str this).
Proof.
  rewrite Parse_computed. do 2 eexists. split; [reflexivity |].
  simpl. split; intros H; now rewrite (outside_table _ _ H).
Qed.
End LogEvent_properties.

(** C9, as the claim has it, fails: [Parse] does not set an out-of-range
    field to [UNDEFINED].  On an object that holds an event of group 7
    ("Client"), parsing a record whose group is 42 returns and leaves
    group 7, which is not [UNDEFINED] (0). *)
Lemma Parse_keeps_a_stale_group :
  Parse (helpers := example_helpers) (wire_record 42 4 "Connected")
    (mkLogEvent (helpers := example_helpers) 7 "Client" 8 "FATAL" "old")
  = Done (Returned tt,
          mkLogEvent (helpers := example_helpers)
            7 "Client" 4 "INFO" "Connected")
  /\ group (mkLogEvent (helpers := example_helpers)
              7 "Client" 4 "INFO" "Connected")
     <> LogGroup_UNDEFINED (log_helpers := example_helpers).
Proof.
  split; [reflexivity | discriminate].
Qed.

Lemma out_of_range_field_is_left_as_found_witness :
  exists o ev built,
    Parse (helpers := example_helpers) (wire_record 42 4 "Connected")
      (mkLogEvent (helpers := example_helpers) 7 "Client" 8 "FATAL" "old")
    = Done (o, ev) /\
    LogEvent_from (helpers := example_helpers)
      (wire_record 42 4 "Connected")
      (mkLogEvent (helpers := example_helpers) 7 "Client" 8 "FATAL" "old")
    = Done (o, built) /\
    group ev = 7 /\ group_str ev = "Client" /\
    group built = 0 /\ group_str built = "" /\
    category ev = 4 /\ category_str ev = "INFO" /\
    category built = 4 /\ category_str built = "INFO" /\
    message ev = "Connected" /\ message built = "Connected" /\
    o = Returned tt.
Proof.
  destruct (out_of_range_field_is_left_as_found
              (helpers := example_helpers) 42 4 "Connected"
              (mkLogEvent (helpers := example_helpers)
                 7 "Client" 8 "FATAL" "old")
              (mkLogEvent (helpers := example_helpers)
                 7 "Client" 8 "FATAL" "old"))
    as (o & ev & built & Hparse & Hfrom & Hgroup & _ & _ & Hcategory
        & Hmessage & Hbuilt & Ho).
  exists o, ev, built. split; [exact Hparse |]. split; [exact Hfrom |].
  destruct Hgroup as (Hg1 & Hg2 & _ & Hg3 & Hg4);
    [right; vm_compute; discriminate |].
  destruct Hcategory as (Hc1 & Hc2 & Hc3 & Hc4);
    [vm_compute; split; reflexivity |].
  repeat split; try assumption.
  apply Ho. reflexivity.
Defined.

(** * More properties of the access control list *)

(** X1: the owner passes both checks, whatever the public-access flag, the
    granted list and [allow_root] are. *)
Theorem owner_is_always_authorized
        (d : daemon) (this : DBusCredentials) (sender : string)
        (owner_only allow_root : bool) :
  resolves d sender (owner this) ->
  run d (check_acl sender owner_only allow_root this)
  = Some (Returned tt, this).
Proof.
  intros Hres.
  rewrite run_check_acl, (lookup_uid_resolves _ _ _ Hres), N.eqb_refl.
  now destruct (acl_public this && negb owner_only).
Qed.

Lemma owner_is_always_authorized_witness :
  run (bus_daemon [(":1.7", 1000)])
      (CheckOwnerAccess ":1.7" false (mkDBusCredentials 1000 true [2000]))
  = Some (Returned tt, mkDBusCredentials 1000 true [2000]).
Proof.
  apply (owner_is_always_authorized
           (bus_daemon [(":1.7", 1000)])
           (mkDBusCredentials 1000 true [2000]) ":1.7" true false).
  reflexivity.
Defined.

(** X2: for a caller whom the bus daemon resolves to [uid],
    [CheckOwnerAccess] returns exactly when [uid] is the owner, or root is
    allowed and [uid] is 0; the granted list and the public-access flag
    play no part.  Otherwise it throws the access-denied error with the
    text "Owner access denied", carrying [uid]. *)
Theorem CheckOwnerAccess_decision
        (d : daemon) (this : DBusCredentials) (sender : string)
        (allow_root : bool) (uid : uid_t) :
  resolves d sender uid ->
  (run d (CheckOwnerAccess sender allow_root this) = Some (Returned tt, this)
   <-> (uid = owner this \/ (allow_root = true /\ uid = 0))) /\
  (~ (uid = owner this \/ (allow_root = true /\ uid = 0)) ->
   run d (CheckOwnerAccess sender allow_root this)
   = Some (Thrown (DBusCredentialsException uid
                     "net.openvpn.v3.error.acl.denied"
                     "Owner access denied"), this)).
Proof.
  intros Hres. unfold CheckOwnerAccess.
  rewrite run_check_acl, (lookup_uid_resolves _ _ _ Hres), andb_false_r.
  destruct (N.eqb_spec uid (owner this)) as [Howner | Howner];
    [intuition |].
  destruct allow_root; simpl.
  - destruct (N.eqb_spec uid 0) as [Hroot | Hroot]; [intuition |].
    split; intuition discriminate.
  - split; intuition discriminate.
Qed.

Lemma CheckOwnerAccess_decision_witness :
  run (bus_daemon [(":1.0", 0); (":1.8", 2000)])
      (CheckOwnerAccess ":1.0" true (mkDBusCredentials 1000 false [2000]))
  = Some (Returned tt, mkDBusCredentials 1000 false [2000])
  /\ run (bus_daemon [(":1.0", 0); (":1.8", 2000)])
         (CheckOwnerAccess ":1.8" true (mkDBusCredentials 1000 false [2000]))
     = Some (Thrown (DBusCredentialsException 2000
                       "net.openvpn.v3.error.acl.denied"
                       "Owner access denied"),
             mkDBusCredentials 1000 false [2000]).
Proof.
  split.
  - apply (proj1 (CheckOwnerAccess_decision
                    (bus_daemon [(":1.0", 0); (":1.8", 2000)])
                    (mkDBusCredentials 1000 false [2000])
                    ":1.0" true 0 eq_refl)).
    right. split; reflexivity.
  - apply (proj2 (CheckOwnerAccess_decision
                    (bus_daemon [(":1.0", 0); (":1.8", 2000)])
                    (mkDBusCredentials 1000 false [2000])
                    ":1.8" true 2000 eq_refl)).
    intros [H | [_ H]]; discriminate.
Defined.

(** X3: whoever passes [CheckOwnerAccess] passes [CheckACL] with the same
    [allow_root], against any bus daemon. *)
Theorem owner_check_implies_general_check
        (d : daemon) (this : DBusCredentials) (sender : string)
        (allow_root : bool) :
  run d (CheckOwnerAccess sender allow_root this) = Some (Returned tt, this) ->
  run d (CheckACL sender allow_root this) = Some (Returned tt, this).
Proof.
  unfold CheckOwnerAccess, CheckACL.
  rewrite !run_check_acl, andb_false_r, andb_true_r.
  destruct (acl_public this); [reflexivity |].
  destruct (lookup_uid d sender) as [[uid | e] |]; try discriminate.
  destruct (uid =? owner this); [reflexivity |].
  destruct (allow_root && (uid =? 0)); [reflexivity | discriminate].
Qed.

Lemma owner_check_implies_general_check_witness :
  run (bus_daemon [(":1.7", 1000)])
      (CheckACL ":1.7" false (mkDBusCredentials 1000 false []))
  = Some (Returned tt, mkDBusCredentials 1000 false []).
Proof.
  apply (owner_check_implies_general_check
           (bus_daemon [(":1.7", 1000)])
           (mkDBusCredentials 1000 false []) ":1.7" false).
  reflexivity.
Defined.

(** X4: [allow_root] only widens access.  A check that passes without it
    passes with it, and with it the caller of uid 0 passes both checks on
    every object. *)
Theorem allow_root_only_widens
        (d : daemon) (this : DBusCredentials) (sender : string)
        (owner_only : bool) :
  (run d (check_acl sender owner_only false this) = Some (Returned tt, this) ->
   run d (check_acl sender owner_only true this) = Some (Returned tt, this)) /\
  (resolves d sender 0 ->
   run d (check_acl sender owner_only true this) = Some (Returned tt, this)).
Proof.
  rewrite !run_check_acl. split.
  - destruct (acl_public this && negb owner_only); [reflexivity |].
    destruct (lookup_uid d sender) as [[uid | e] |]; try discriminate.
    destruct (uid =? owner this); [reflexivity |]. simpl.
    destruct (uid =? 0); [reflexivity |]. exact (fun H => H).
  - intros Hres. rewrite (lookup_uid_resolves _ _ _ Hres).
    destruct (acl_public this && negb owner_only); [reflexivity |].
    destruct (0 =? owner this); reflexivity.
Qed.

Lemma allow_root_only_widens_witness :
  run (bus_daemon [(":1.0", 0); (":1.8", 2000)])
      (CheckACL ":1.8" true (mkDBusCredentials 1000 false [2000]))
  = Some (Returned tt, mkDBusCredentials 1000 false [2000])
  /\ run (bus_daemon [(":1.0", 0); (":1.8", 2000)])
         (CheckOwnerAccess ":1.0" true (mkDBusCredentials 1000 false [2000]))
     = Some (Returned tt, mkDBusCredentials 1000 false [2000]).
Proof.
  split.
  - apply (proj1 (allow_root_only_widens
                    (bus_daemon [(":1.0", 0); (":1.8", 2000)])
                    (mkDBusCredentials 1000 false [2000]) ":1.8" false)).
    reflexivity.
  - apply (proj2 (allow_root_only_widens
                    (bus_daemon [(":1.0", 0); (":1.8", 2000)])
                    (mkDBusCredentials 1000 false [2000]) ":1.0" true)).
    reflexivity.
Defined.

(** X5: a newly constructed object lets in its owner and, where root is
    allowed, uid 0, and nobody else. *)
Theorem new_object_admits_owner_only
        (d : daemon) (o : uid_t) (sender : string) (allow_root : bool)
        (uid : uid_t) :
  resolves d sender uid ->
  (run d (CheckACL sender allow_root (DBusCredentials_new o))
   = Some (Returned tt, DBusCredentials_new o)
   <-> (uid = o \/ (allow_root = true /\ uid = 0))) /\
  (~ (uid = o \/ (allow_root = true /\ uid = 0)) ->
   run d (CheckACL sender allow_root (DBusCredentials_new o))
   = Some (Thrown (DBusCredentialsException uid
                     "net.openvpn.v3.error.acl.denied" "Access denied"),
           DBusCredentials_new o)).
Proof.
  intros Hres. unfold CheckACL.
  rewrite run_check_acl, (lookup_uid_resolves _ _ _ Hres). simpl.
  destruct (N.eqb_spec uid o) as [Howner | Howner]; [intuition |].
  destruct allow_root; simpl.
  - destruct (N.eqb_spec uid 0) as [Hroot | Hroot]; [intuition |].
    split; intuition discriminate.
  - split; intuition discriminate.
Qed.

Lemma new_object_admits_owner_only_witness :
  run (bus_daemon [(":1.8", 2000)])
      (CheckACL ":1.8" true (DBusCredentials_new 1000))
  = Some (Thrown (DBusCredentialsException 2000
                    "net.openvpn.v3.error.acl.denied" "Access denied"),
          DBusCredentials_new 1000).
Proof.
  apply (proj2 (new_object_admits_owner_only
                  (bus_daemon [(":1.8", 2000)]) 1000 ":1.8" true 2000
                  eq_refl)).
  intros [H | [_ H]]; discriminate.
Defined.

(** X6: a check never changes the object it guards, whether it returns or
    throws; it makes at most one D-Bus call, and that call asks the bus
    daemon for the uid behind the sender's bus name. *)
Theorem check_acl_only_asks_for_the_uid
        (d : daemon) (this : DBusCredentials) (sender : string)
        (owner_only allow_root : bool) :
  (run d (check_acl sender owner_only allow_root this) = None \/
   exists o,
     run d (check_acl sender owner_only allow_root this) = Some (o, this)) /\
  (List.length (calls d (check_acl sender owner_only allow_root this))
   <= 1)%nat /\
  Forall (fun c => fst c
                   = ("GetConnectionUnixUser", Some (g_variant_new_s sender)))
         (calls d (check_acl sender owner_only allow_root this)).
Proof.
  rewrite run_check_acl, calls_check_acl. repeat split.
  - destruct (acl_public this && negb owner_only); [right; now eexists |].
    destruct (lookup_uid d sender) as [[uid | e] |];
      [right; now eexists | right; now eexists | now left].
  - destruct (acl_public this && negb owner_only); simpl; lia.
  - destruct (acl_public this && negb owner_only); repeat constructor.
Qed.

Lemma granted_after_GrantAccess (uid : uid_t) (this : DBusCredentials) :
  In uid (acl_list (object_after (GrantAccess uid this) this)).
Proof.
  rewrite GrantAccess_computed.
  destruct (existsb _ _) eqn:E; simpl.
  - now apply existsb_eqb_In.
  - rewrite in_app_iff. right. now left.
Qed.

Lemma absent_after_RevokeAccess (uid : uid_t) (this : DBusCredentials) :
  ~ In uid (acl_list (object_after (RevokeAccess uid this) this)).
Proof.
  rewrite RevokeAccess_computed.
  destruct (existsb _ _) eqn:E; simpl.
  - rewrite filter_In, N.eqb_refl. simpl. intros [_ H]. discriminate.
  - now apply existsb_eqb_not_In.
Qed.

Lemma membership_of_others (op : acl_op) (v : uid_t) (this : DBusCredentials) :
  ~ names op v ->
  In v (acl_list (object_after (apply_op op this) this))
  <-> In v (acl_list this).
Proof.
  unfold names. intros Hop.
  destruct (apply_op_acl_list op this)
    as [-> | [(u & -> & _ & ->) | (u & -> & ->)]].
  - reflexivity.
  - rewrite in_app_iff. simpl.
    assert (u <> v) by (intros ->; tauto). tauto.
  - rewrite filter_In.
    assert (Hne : u <> v) by (intros ->; tauto).
    destruct (N.eqb_spec v u) as [-> | _]; simpl; [tauto |].
    intuition.
Qed.

Lemma apply_ops_app (ops1 ops2 : list acl_op) (this : DBusCredentials) :
  apply_ops (ops1 ++ ops2) this = apply_ops ops2 (apply_ops ops1 this).
Proof.
  revert this. induction ops1 as [| op rest IH]; simpl; intros this.
  - reflexivity.
  - apply IH.
Qed.

(** X7: once [GrantAccess(uid)] has been called, whether it returned or
    threw the duplicate-grant error, a caller of that uid passes
    [CheckACL]. *)
Theorem grant_opens_the_general_check
        (d : daemon) (this : DBusCredentials) (sender : string)
        (allow_root : bool) (uid : uid_t) :
  resolves d sender uid ->
  run d (CheckACL sender allow_root
           (object_after (GrantAccess uid this) this))
  = Some (Returned tt, object_after (GrantAccess uid this) this).
Proof.
  intros Hres. unfold CheckACL.
  rewrite run_check_acl, (lookup_uid_resolves _ _ _ Hres).
  pose proof (granted_after_GrantAccess uid this) as Hin.
  apply existsb_eqb_In in Hin. rewrite Hin.
  destruct (acl_public _ && negb false); [reflexivity |].
  destruct (uid =? owner _); [reflexivity |].
  now destruct (allow_root && (uid =? 0)).
Qed.

Lemma grant_opens_the_general_check_witness :
  run (bus_daemon [(":1.8", 2000)])
      (CheckACL ":1.8" false
         (object_after (GrantAccess 2000 (DBusCredentials_new 1000))
            (DBusCredentials_new 1000)))
  = Some (Returned tt, mkDBusCredentials 1000 false [2000]).
Proof.
  apply (grant_opens_the_general_check
           (bus_daemon [(":1.8", 2000)]) (DBusCredentials_new 1000)
           ":1.8" false 2000).
  reflexivity.
Defined.

(** X8: once [RevokeAccess(uid)] has been called, whether it returned or
    threw the no-such-grant error, a caller of that uid is refused by
    [CheckACL], unless the object has public access, the uid is the
    owner's, or it is 0 and root is allowed.  This holds also for a list
    that held the uid more than once. *)
Theorem revoke_closes_the_general_check
        (d : daemon) (this : DBusCredentials) (sender : string)
        (allow_root : bool) (uid : uid_t) :
  resolves d sender uid ->
  acl_public this = false ->
  uid <> owner this ->
  (allow_root = true -> uid <> 0) ->
  run d (CheckACL sender allow_root
           (object_after (RevokeAccess uid this) this))
  = Some (Thrown (DBusCredentialsException uid
                    "net.openvpn.v3.error.acl.denied" "Access denied"),
          object_after (RevokeAccess uid this) this).
Proof.
  intros Hres Hpublic Howner Hroot. unfold CheckACL.
  rewrite run_check_acl, (lookup_uid_resolves _ _ _ Hres).
  assert (Hsame : acl_public (object_after (RevokeAccess uid this) this)
                  = acl_public this
                  /\ owner (object_after (RevokeAccess uid this) this)
                     = owner this).
  { rewrite RevokeAccess_computed.
    destruct (existsb _ _); simpl; split; reflexivity. }
  pose proof (absent_after_RevokeAccess uid this) as Hnot.
  apply existsb_eqb_not_In in Hnot. rewrite Hnot.
  destruct Hsame as [-> ->]. rewrite Hpublic. simpl.
  apply N.eqb_neq in Howner. rewrite Howner.
  destruct allow_root; simpl; [| reflexivity].
  specialize (Hroot eq_refl). apply N.eqb_neq in Hroot. now rewrite Hroot.
Qed.

Lemma revoke_closes_the_general_check_witness :
  run (bus_daemon [(":1.8", 2000)])
      (CheckACL ":1.8" true
         (object_after
            (RevokeAccess 2000 (mkDBusCredentials 1000 false [2000; 3000]))
            (mkDBusCredentials 1000 false [2000; 3000])))
  = Some (Thrown (DBusCredentialsException 2000
                    "net.openvpn.v3.error.acl.denied" "Access denied"),
          mkDBusCredentials 1000 false [3000]).
Proof.
  apply (revoke_closes_the_general_check
           (bus_daemon [(":1.8", 2000)])
           (mkDBusCredentials 1000 false [2000; 3000]) ":1.8" true 2000).
  - reflexivity.
  - reflexivity.
  - discriminate.
  - discriminate.
Defined.

(** X9: on every object, the second of two [GrantAccess] calls for the
    same uid in a row throws the duplicate-grant error (the first already
    does when the uid was granted before), and the uid is in the list
    afterwards; the second of two [RevokeAccess] calls in a row throws the
    no-such-grant error, and the uid is not in the list afterwards. *)
Theorem repeated_grant_or_revoke_throws
        (this : DBusCredentials) (uid : uid_t) :
  (exists this',
      (GrantAccess uid ;; GrantAccess uid) this
      = Done (Thrown (DBusCredentialsException (owner this)
                        "net.openvpn.v3.error.acl.duplicate"
                        "UID already granted access"), this')
      /\ In uid (acl_list this')) /\
  (exists this',
      (RevokeAccess uid ;; RevokeAccess uid) this
      = Done (Thrown (DBusCredentialsException (owner this)
                        "net.openvpn.v3.error.acl.nogrant"
                        "UID is not listed in access list"), this')
      /\ ~ In uid (acl_list this')).
Proof.
  split.
  - exists (object_after (GrantAccess uid this) this).
    split; [| apply granted_after_GrantAccess].
    unfold bind. rewrite GrantAccess_computed.
    destruct (existsb _ _) eqn:E; simpl; [reflexivity |].
    rewrite GrantAccess_computed.
    assert (Hin : In uid (acl_list (push_back uid this))).
    { simpl. rewrite in_app_iff. right. now left. }
    apply existsb_eqb_In in Hin. now rewrite Hin.
  - exists (object_after (RevokeAccess uid this) this).
    split; [| apply absent_after_RevokeAccess].
    unfold bind. rewrite RevokeAccess_computed.
    destruct (existsb _ _) eqn:E; simpl; [| reflexivity].
    rewrite RevokeAccess_computed.
    assert (Hnot : ~ In uid (acl_list (erase_remove uid this))).
    { simpl. rewrite filter_In, N.eqb_refl. simpl. intros [_ H].
      discriminate. }
    apply existsb_eqb_not_In in Hnot. now rewrite Hnot.
Qed.

Lemma apply_ops_grants (l : list uid_t) (this : DBusCredentials) :
  NoDup l ->
  (forall u, In u l -> ~ In u (acl_list this)) ->
  acl_list (apply_ops (map Grant l) this) = (acl_list this ++ l)%list.
Proof.
  revert this. induction l as [| a l IH]; simpl; intros this Hnd Hfresh.
  - now rewrite app_nil_r.
  - inversion Hnd as [| ? ? Ha Hl]; subst.
    rewrite GrantAccess_computed.
    assert (Hnot : ~ In a (acl_list this)) by (apply Hfresh; now left).
    apply existsb_eqb_not_In in Hnot. rewrite Hnot. simpl.
    rewrite IH; [simpl; now rewrite <- app_assoc | assumption |].
    intros u Hu. simpl. rewrite in_app_iff. simpl.
    assert (u <> a) by (intros ->; contradiction).
    specialize (Hfresh u (or_intror Hu)). intuition congruence.
Qed.

(** X10: the granted list is kept in the order of the grants.  After
    granting pairwise different uids to a new object, [GetAccessList]
    returns them in the order in which they were granted. *)
Theorem grants_are_listed_in_order (o : uid_t) (l : list uid_t) :
  NoDup l ->
  GetAccessList (apply_ops (map Grant l) (DBusCredentials_new o))
  = Done (Returned l, apply_ops (map Grant l) (DBusCredentials_new o)).
Proof.
  intros Hnd. unfold GetAccessList, bind, get, ret. simpl.
  rewrite (apply_ops_grants l (DBusCredentials_new o) Hnd); [reflexivity |].
  intros u _. simpl. tauto.
Qed.

Lemma grants_are_listed_in_order_witness :
  GetAccessList
    (apply_ops (map Grant [3000; 0; 2000]) (DBusCredentials_new 1000))
  = Done (Returned [3000; 0; 2000],
          apply_ops (map Grant [3000; 0; 2000]) (DBusCredentials_new 1000)).
Proof.
  apply (grants_are_listed_in_order 1000 [3000; 0; 2000]).
  repeat constructor; simpl; intuition discriminate.
Defined.

(** X11: [GrantAccess], [RevokeAccess] and [SetPublicAccess] make no D-Bus
    call and never change the owner.  Granting and revoking leave the
    public-access flag alone; setting the flag leaves the granted list
    alone. *)
Theorem acl_calls_touch_only_their_field
        (op : acl_op) (this : DBusCredentials) :
  (forall d, calls d (apply_op op this) = []) /\
  owner (object_after (apply_op op this) this) = owner this /\
  match op with
  | Grant _ | Revoke _ =>
      acl_public (object_after (apply_op op this) this) = acl_public this
  | SetPublic public_access =>
      acl_public (object_after (apply_op op this) this) = public_access /\
      acl_list (object_after (apply_op op this) this) = acl_list this
  end.
Proof.
  destruct op as [uid | uid | b]; simpl;
    rewrite ?GrantAccess_computed, ?RevokeAccess_computed;
    try destruct (existsb _ _); simpl; repeat split.
Qed.

Lemma membership_after_others
      (uid : uid_t) (rest : list acl_op) (this : DBusCredentials) :
  Forall (fun op => ~ names op uid) rest ->
  In uid (acl_list (apply_ops rest this)) <-> In uid (acl_list this).
Proof.
  revert this. induction rest as [| op rest IH]; simpl; intros this Hrest.
  - reflexivity.
  - inversion Hrest as [| ? ? Hop Hrest']; subst.
    rewrite (IH _ Hrest'). now apply membership_of_others.
Qed.

(** X12: the granted list behaves as a set whose content the last call
    naming a uid decides.  In any sequence of calls on any object, if the
    last call that names [uid] is a grant, [uid] is in the list at the end,
    and if it is a revoke, [uid] is not; it does not matter whether those
    calls returned or threw. *)
Theorem last_call_naming_a_uid_decides
        (this : DBusCredentials) (uid : uid_t) (before rest : list acl_op) :
  Forall (fun op => ~ names op uid) rest ->
  In uid (acl_list (apply_ops (before ++ Grant uid :: rest) this)) /\
  ~ In uid (acl_list (apply_ops (before ++ Revoke uid :: rest) this)).
Proof.
  intros Hrest. rewrite !apply_ops_app. simpl.
  rewrite !(membership_after_others uid rest _ Hrest). split.
  - apply granted_after_GrantAccess.
  - apply absent_after_RevokeAccess.
Qed.

Lemma last_call_naming_a_uid_decides_witness :
  In 2000 (acl_list (apply_ops
                       ([Grant 2000; Revoke 2000]
                          ++ Grant 2000 :: [Grant 3000; SetPublic true])
                       (DBusCredentials_new 1000)))
  /\ ~ In 2000 (acl_list (apply_ops
                            ([Grant 2000; Revoke 2000]
                               ++ Revoke 2000 :: [Grant 3000; SetPublic true])
                            (DBusCredentials_new 1000))).
Proof.
  apply (last_call_naming_a_uid_decides
           (DBusCredentials_new 1000) 2000
           [Grant 2000; Revoke 2000] [Grant 3000; SetPublic true]).
  repeat constructor; intros [H | H]; discriminate.
Defined.

Lemma lookup_uid_returned (d : daemon) (sender : string) (uid : uid_t) :
  lookup_uid d sender = Some (Returned uid) -> resolves d sender uid.
Proof.
  unfold lookup_uid, resolves. rewrite run_GetUID.
  destruct (d _ _) as [classname raw | res]; simpl; [discriminate |].
  destruct res as [[v | s | [| [v | s | items | entries] [| second rest]]
                   | entries] |]; try discriminate.
  now intros [= ->].
Qed.

(** X13: what the errors of the access control list say.  A check throws
    either the [DBusException] of a failed lookup or an access-denied
    error that carries the uid the bus daemon reported for the sender.
    The duplicate-grant and no-such-grant errors carry the uid of the
    owner of the object, not the uid that was to be granted or revoked.
    In each case [SetDBusError] hands the error's own domain to the D-Bus
    caller, never the fallback domain, and the text without a uid. *)
Theorem acl_errors_and_their_uid
        (d : daemon) (this this' : DBusCredentials) (sender : string)
        (owner_only allow_root : bool) (uid : uid_t) (e : exception) :
  (run d (check_acl sender owner_only allow_root this) = Some (Thrown e, this')
   -> (exists raw, e = lookup_failed sender raw) \/
      (exists sender_uid text,
          resolves d sender sender_uid /\
          e = DBusCredentialsException sender_uid
                "net.openvpn.v3.error.acl.denied" text /\
          text = (if owner_only then "Owner access denied"
                  else "Access denied") /\
          SetDBusError e = Some ("net.openvpn.v3.error.acl.denied", text))) /\
  (GrantAccess uid this = Done (Thrown e, this')
   -> e = DBusCredentialsException (owner this)
            "net.openvpn.v3.error.acl.duplicate" "UID already granted access"
      /\ SetDBusError e = Some ("net.openvpn.v3.error.acl.duplicate",
                                "UID already granted access")) /\
  (RevokeAccess uid this = Done (Thrown e, this')
   -> e = DBusCredentialsException (owner this)
            "net.openvpn.v3.error.acl.nogrant"
            "UID is not listed in access list"
      /\ SetDBusError e = Some ("net.openvpn.v3.error.acl.nogrant",
                                "UID is not listed in access list")).
Proof.
  split; [| split].
  - rewrite run_check_acl.
    destruct (acl_public this && negb owner_only); [discriminate |].
    destruct (lookup_uid d sender) as [[sender_uid | e'] |] eqn:E;
      [| | discriminate].
    + intros H. injection H as H _. right.
      apply lookup_uid_returned in E.
      destruct (sender_uid =? owner this); [discriminate |].
      destruct (allow_root && (sender_uid =? 0)); [discriminate |].
      destruct owner_only.
      * injection H as <-. now exists sender_uid, "Owner access denied".
      * destruct (existsb _ _); [discriminate |].
        injection H as <-. now exists sender_uid, "Access denied".
    + intros H. injection H as -> _. left.
      now apply lookup_uid_thrown in E.
  - rewrite GrantAccess_computed.
    destruct (existsb _ _); [| discriminate].
    intros H. injection H as <- _. now split.
  - rewrite RevokeAccess_computed.
    destruct (existsb _ _); [discriminate |].
    intros H. injection H as <- _. now split.
Qed.

Lemma acl_errors_and_their_uid_witness :
  SetDBusError (DBusCredentialsException 1000
                  "net.openvpn.v3.error.acl.duplicate"
                  "UID already granted access")
  = Some ("net.openvpn.v3.error.acl.duplicate", "UID already granted access")
  /\ SetDBusError (DBusCredentialsException 1000
                     "net.openvpn.v3.error.acl.nogrant"
                     "UID is not listed in access list")
     = Some ("net.openvpn.v3.error.acl.nogrant",
             "UID is not listed in access list").
Proof.
  split.
  - apply (proj1 (proj2 (acl_errors_and_their_uid
                           (bus_daemon [])
                           (mkDBusCredentials 1000 false [2000])
                           (mkDBusCredentials 1000 false [2000])
                           ":1.8" false false 2000
                           (DBusCredentialsException 1000
                              "net.openvpn.v3.error.acl.duplicate"
                              "UID already granted access")))).
    reflexivity.
  - apply (proj2 (proj2 (acl_errors_and_their_uid
                           (bus_daemon [])
                           (mkDBusCredentials 1000 false [2000])
                           (mkDBusCredentials 1000 false [2000])
                           ":1.8" false false 3000
                           (DBusCredentialsException 1000
                              "net.openvpn.v3.error.acl.nogrant"
                              "UID is not listed in access list")))).
    reflexivity.
Defined.

(** * The process id of a caller *)

Lemma run_GetPID {S} (d : daemon) (sender : string) (this : S) :
  run d (GetPID sender this) =
  match d "GetConnectionUnixProcessID" (Some (g_variant_new_s sender)) with
  | CallThrew _ raw =>
      Some (Thrown (DBusException "DBusConnectionCreds"
                      ("Failed to retrieve process ID for bus name '"
                       ++ sender ++ "': " ++ raw)), this)
  | CallReturned (Some (GV_tuple [GV_uint32 v])) =>
      Some (Returned (pid_t_of_uint32 v), this)
  | CallReturned _ => None
  end.
Proof.
  unfold GetPID, try_catch, bind, Call. simpl.
  destruct (d _ _) as [classname raw | res]; simpl; [reflexivity |].
  destruct res as [[v | s | [| [v | s | items | entries] [| second rest]]
                   | entries] |]; reflexivity.
Qed.

(** X14: [GetPID] returns the process id the bus daemon reports when it is
    below 2^31; a value from 2^31 up to 2^32 - 1 comes out negative, since
    [pid_t] is signed.  When the query fails, [GetPID] throws a
    [DBusException] of class name "DBusConnectionCreds" whose text names
    the bus name and ends with the raw error of the failure.  The object is
    unchanged in each case. *)
Theorem GetPID_result {S : Type} (d : daemon) (sender : string) (this : S) :
  (forall v,
      d "GetConnectionUnixProcessID" (Some (g_variant_new_s sender))
      = CallReturned (Some (GV_tuple [GV_uint32 v])) ->
      (v < 2 ^ 31 ->
       run d (GetPID sender this) = Some (Returned (Z.of_N v), this)) /\
      (2 ^ 31 <= v < 2 ^ 32 ->
       run d (GetPID sender this)
       = Some (Returned (Z.of_N v - 2 ^ 32)%Z, this))) /\
  (forall classname raw,
      d "GetConnectionUnixProcessID" (Some (g_variant_new_s sender))
      = CallThrew classname raw ->
      run d (GetPID sender this)
      = Some (Thrown (DBusException "DBusConnectionCreds"
                        ("Failed to retrieve process ID for bus name '"
                         ++ sender ++ "': " ++ raw)), this)).
Proof.
  rewrite run_GetPID. split.
  - intros v ->. unfold pid_t_of_uint32. split; intros Hv.
    + rewrite N.mod_small by (eapply N.lt_trans; [exact Hv | reflexivity]).
      apply N.ltb_lt in Hv. now rewrite Hv.
    + destruct Hv as [Hlow Hhigh]. rewrite N.mod_small by assumption.
      apply N.ltb_ge in Hlow. now rewrite Hlow.
  - now intros classname raw ->.
Qed.

Lemma GetPID_result_witness :
  run (fun _ _ => CallReturned (Some (GV_tuple [GV_uint32 4711])))
      (GetPID ":1.8" tt)
  = Some (Returned 4711%Z, tt)
  /\ run (fun _ _ => CallReturned (Some (GV_tuple [GV_uint32 4294967295])))
         (GetPID ":1.8" tt)
     = Some (Returned (-1)%Z, tt)
  /\ run (bus_daemon []) (GetPID ":1.8" tt)
     = Some (Thrown (DBusException "DBusConnectionCreds"
                       "Failed to retrieve process ID for bus name ':1.8': Unknown method"),
             tt).
Proof.
  split; [| split].
  - apply (proj1 (proj1 (GetPID_result
                           (fun _ _ => CallReturned
                                         (Some (GV_tuple [GV_uint32 4711])))
                           ":1.8" tt) 4711 eq_refl)).
    reflexivity.
  - apply (proj2 (proj1 (GetPID_result
                           (fun _ _ => CallReturned
                                         (Some (GV_tuple
                                                  [GV_uint32 4294967295])))
                           ":1.8" tt) 4294967295 eq_refl)).
    split; [discriminate | reflexivity].
  - apply (proj2 (GetPID_result (bus_daemon []) ":1.8" tt)
             "DBusProxy" "Unknown method").
    reflexivity.
Defined.

(** * The proxies *)

Lemma calls_proxy_call {S} (m : proxy_method) (d : daemon) (this : S) :
  calls d (proxy_call m this) =
  [(fst (dbus_method m), snd (dbus_method m),
    d (fst (dbus_method m)) (snd (dbus_method m)))].
Proof.
  destruct m; simpl;
    unfold OpenVPN3SessionProxy.Connect, OpenVPN3SessionProxy.Restart,
      OpenVPN3SessionProxy.Disconnect, OpenVPN3SessionProxy.Pause,
      OpenVPN3SessionProxy.Resume, OpenVPN3SessionProxy.AccessGrant,
      OpenVPN3SessionProxy.AccessRevoke, OpenVPN3ConfigurationProxy.Remove,
      OpenVPN3ConfigurationProxy.Seal,
      OpenVPN3ConfigurationProxy.AccessGrant,
      OpenVPN3ConfigurationProxy.AccessRevoke, simple_call, bind, Call,
      g_variant_new_s, g_variant_new_u;
    simpl; f_equal;
    match goal with
    | |- context [d ?method ?params] =>
        destruct (d method params) as [c raw | [v |]]
    end; reflexivity.
Qed.

(** X15: [Connect], [Restart], [Disconnect], [Pause], [Resume],
    [AccessGrant] and [AccessRevoke] of the session proxy, and [Remove],
    [Seal], [AccessGrant] and [AccessRevoke] of the configuration proxy,
    each make exactly one D-Bus call, of the method and with the parameters
    of [dbus_method].  The method returns exactly when the call returned a
    value that is not [NULL].  A [DBusException] thrown by the call goes to
    the caller as it is.  Whatever one of these methods throws is of class
    [DBusException] itself: never a [ReadyException]. *)
Theorem proxy_methods_pass_the_answer_on
        {S : Type} (m : proxy_method) (d : daemon) (this : S) :
  calls d (proxy_call m this)
  = [(fst (dbus_method m), snd (dbus_method m),
      d (fst (dbus_method m)) (snd (dbus_method m)))] /\
  (run d (proxy_call m this) = Some (Returned tt, this)
   <-> exists v, d (fst (dbus_method m)) (snd (dbus_method m))
                 = CallReturned (Some v)) /\
  (forall classname raw,
      d (fst (dbus_method m)) (snd (dbus_method m)) = CallThrew classname raw ->
      run d (proxy_call m this)
      = Some (Thrown (DBusException classname raw), this)) /\
  (forall e this',
      run d (proxy_call m this) = Some (Thrown e, this') ->
      this' = this /\
      class_of e = class_DBusException /\
      caught_by class_ReadyException e = false).
Proof.
  split; [apply calls_proxy_call |].
  destruct (run_proxy_call m d this) as (classname & text & ->).
  destruct (d _ _) as [c raw | [v |]].
  - split; [| split].
    + split; [discriminate | intros [v H]; discriminate].
    + now intros classname' raw' [= -> ->].
    + intros e this' [= <- <-]. now repeat split.
  - split; [| split].
    + split; [intros _; now exists v | reflexivity].
    + discriminate.
    + discriminate.
  - split; [| split].
    + split; [discriminate | intros [v H]; discriminate].
    + discriminate.
    + intros e this' [= <- <-]. now repeat split.
Qed.

Lemma proxy_methods_pass_the_answer_on_witness :
  run (bus_daemon []) (proxy_call (session_Pause "lunch") tt)
  = Some (Thrown (DBusException "DBusProxy" "Unknown method"), tt)
  /\ run (fun _ _ => CallReturned (Some (GV_tuple [])))
         (proxy_call (config_AccessGrant 2000) tt)
     = Some (Returned tt, tt).
Proof.
  split.
  - apply (proj1 (proj2 (proj2 (proxy_methods_pass_the_answer_on
                                  (session_Pause "lunch") (bus_daemon []) tt)))
             "DBusProxy" "Unknown method").
    reflexivity.
  - apply (proj1 (proj2 (proxy_methods_pass_the_answer_on
                           (config_AccessGrant 2000)
                           (fun _ _ => CallReturned (Some (GV_tuple [])))
                           tt))).
    now exists (GV_tuple []).
Defined.

Lemma calls_Ready {S} (d : daemon) (this : S) :
  calls d (Ready this) = [("Ready", None, d "Ready" None)].
Proof.
  unfold Ready, try_catch, simple_call, bind, Call. simpl. f_equal.
  destruct (d "Ready" None) as [classname raw | [res |]]; reflexivity.
Qed.

(** X16: [Ready()] makes one D-Bus call, "Ready" without parameters.  When
    the call throws, the [ReadyException] carries the raw error text of
    that exception and drops its class name; when the call returns [NULL],
    the text is "Connection not ready to connect yet"; when it returns a
    value, [Ready()] returns.  For the same answer [Connect()] throws a
    [DBusException] where [Ready()] throws a [ReadyException], with the
    same raw error. *)
Theorem Ready_keeps_the_raw_error {S : Type} (d : daemon) (this : S) :
  calls d (Ready this) = [("Ready", None, d "Ready" None)] /\
  (forall classname raw,
      d "Ready" None = CallThrew classname raw ->
      run d (Ready this) = Some (Thrown (ReadyException raw), this)) /\
  (d "Ready" None = CallReturned None ->
   run d (Ready this)
   = Some (Thrown (ReadyException "Connection not ready to connect yet"),
           this)) /\
  (forall v,
      d "Ready" None = CallReturned (Some v) ->
      run d (Ready this) = Some (Returned tt, this)) /\
  (forall answer e e' this1 this2,
      d "Ready" None = answer ->
      d "Connect" None = answer ->
      run d (Ready this) = Some (Thrown e, this1) ->
      run d (OpenVPN3SessionProxy.Connect this) = Some (Thrown e', this2) ->
      class_of e = class_ReadyException /\
      class_of e' = class_DBusException /\
      (forall classname raw,
          answer = CallThrew classname raw ->
          getRawError e = raw /\ getRawError e' = raw)).
Proof.
  split; [apply calls_Ready |]. rewrite run_Ready.
  split; [now intros classname raw -> |].
  split; [now intros -> |].
  split; [now intros v -> |].
  intros answer e e' this1 this2 HReady HConnect.
  destruct (run_proxy_call session_Connect d this) as (cn & text & Hrun).
  change (proxy_call session_Connect this)
    with (OpenVPN3SessionProxy.Connect this) in Hrun.
  cbn [dbus_method fst snd] in Hrun. rewrite Hrun, HReady, HConnect.
  destruct answer as [classname raw | [v |]];
    intros [= <- _] [= <- _];
    (split; [reflexivity | split; [reflexivity |]]);
    intros classname' raw' [= _ <-]; split; reflexivity.
Qed.

Lemma Ready_keeps_the_raw_error_witness :
  run (bus_daemon []) (Ready tt)
  = Some (Thrown (ReadyException "Unknown method"), tt)
  /\ run (fun _ _ => CallReturned None) (Ready tt)
     = Some (Thrown (ReadyException "Connection not ready to connect yet"),
             tt).
Proof.
  split.
  - apply (proj1 (proj2 (Ready_keeps_the_raw_error (bus_daemon []) tt))
             "DBusProxy" "Unknown method").
    reflexivity.
  - apply (proj1 (proj2 (proj2 (Ready_keeps_the_raw_error
                                  (fun _ _ => CallReturned None) tt)))).
    reflexivity.
Defined.

(** * Strings that pass through C *)

Lemma c_str_without_NUL (s : string) :
  ~ In Ascii.zero (characters s) -> c_str s = s.
Proof.
  induction s as [| c rest IH]; simpl; intros Hnot.
  - reflexivity.
  - destruct (Ascii.eqb_spec c Ascii.zero) as [-> | Hc].
    + exfalso. apply Hnot. now left.
    + rewrite IH; [reflexivity | tauto].
Qed.

Lemma c_str_full_length (s : string) :
  String.length (c_str s) = String.length s <->
  ~ In Ascii.zero (characters s).
Proof.
  induction s as [| c rest IH]; simpl.
  - tauto.
  - destruct (Ascii.eqb_spec c Ascii.zero) as [-> | Hc]; simpl.
    + split; [discriminate | intros H; exfalso; apply H; now left].
    + split.
      * intros [= H]. apply IH in H. intros [Heq | Hin]; [| tauto].
        now apply Hc.
      * intros H. f_equal. apply IH. tauto.
Qed.

(** X17: [GetConfig] and [GetJSONConfig] make one call, "Fetch" and
    "FetchJSON", and return the text of the answer, as far as its first NUL
    character: all of it when it holds none.  When the call returns [NULL]
    they throw a [DBusException] of class name
    "OpenVPN3ConfigurationProxy". *)
Theorem GetConfig_returns_the_text
        {S : Type} (d : daemon) (this : S) (text : string) :
  (d "Fetch" None = CallReturned (Some (GV_tuple [GV_string text])) ->
   run d (OpenVPN3ConfigurationProxy.GetConfig this)
   = Some (Returned (c_str text), this) /\
   (~ In Ascii.zero (characters text) ->
    run d (OpenVPN3ConfigurationProxy.GetConfig this)
    = Some (Returned text, this))) /\
  (d "FetchJSON" None = CallReturned (Some (GV_tuple [GV_string text])) ->
   run d (OpenVPN3ConfigurationProxy.GetJSONConfig this)
   = Some (Returned (c_str text), this) /\
   (~ In Ascii.zero (characters text) ->
    run d (OpenVPN3ConfigurationProxy.GetJSONConfig this)
    = Some (Returned text, this))) /\
  (d "Fetch" None = CallReturned None ->
   run d (OpenVPN3ConfigurationProxy.GetConfig this)
   = Some (Thrown (DBusException "OpenVPN3ConfigurationProxy"
                     "Failed to retrieve configuration"), this)) /\
  (d "FetchJSON" None = CallReturned None ->
   run d (OpenVPN3ConfigurationProxy.GetJSONConfig this)
   = Some (Thrown (DBusException "OpenVPN3ConfigurationProxy"
                     "Failed to retrieve configuration (JSON format)"),
           this)).
Proof.
  unfold OpenVPN3ConfigurationProxy.GetConfig,
    OpenVPN3ConfigurationProxy.GetJSONConfig, bind, Call. simpl.
  split; [| split; [| split]]; intros H; rewrite H; simpl;
    try reflexivity;
    (split; [reflexivity |]);
    intros Hnot; now rewrite (c_str_without_NUL _ Hnot).
Qed.

Lemma GetConfig_returns_the_text_witness :
  run (fun _ _ => CallReturned (Some (GV_tuple [GV_string "remote vpn"])))
      (OpenVPN3ConfigurationProxy.GetConfig tt)
  = Some (Returned "remote vpn", tt)
  /\ run (fun _ _ => CallReturned None)
         (OpenVPN3ConfigurationProxy.GetJSONConfig tt)
     = Some (Thrown (DBusException "OpenVPN3ConfigurationProxy"
                       "Failed to retrieve configuration (JSON format)"),
             tt).
Proof.
  split.
  - apply (proj1 (GetConfig_returns_the_text
                    (fun _ _ => CallReturned
                                  (Some (GV_tuple [GV_string "remote vpn"])))
                    tt "remote vpn") eq_refl).
    simpl. intros H. repeat (destruct H as [H | H]; [discriminate H |]).
    exact H.
  - apply (proj2 (proj2 (proj2 (GetConfig_returns_the_text
                                  (fun _ _ => CallReturned None) tt "")))).
    reflexivity.
Defined.

(** X18: [get_object_path] hands back a target that begins with a slash
    as it is, without asking for a property.  Every other target, the
    empty one among them, is taken for an alias: the answer is the
    [config_path] property of the object "<root>/aliases/<target>". *)
Theorem get_object_path_resolves_aliases_only
        {S : Type} (rootp : string)
        (GetStringProperty : string -> string -> M S string) :
  (forall rest this,
      OpenVPN3ConfigurationProxy.get_object_path
        rootp GetStringProperty (String "/" rest) this
      = Done (Returned (String "/" rest), this)) /\
  OpenVPN3ConfigurationProxy.get_object_path rootp GetStringProperty ""
  = GetStringProperty (rootp ++ "/aliases/") "config_path" /\
  (forall c rest,
      c <> "/"%char ->
      OpenVPN3ConfigurationProxy.get_object_path
        rootp GetStringProperty (String c rest)
      = GetStringProperty (rootp ++ "/aliases/" ++ String c rest)
          "config_path").
Proof.
  unfold OpenVPN3ConfigurationProxy.get_object_path.
  split; [reflexivity | split; [reflexivity |]].
  intros c rest Hc. apply Ascii.eqb_neq in Hc. now rewrite Hc.
Qed.

Lemma get_object_path_resolves_aliases_only_witness :
  OpenVPN3ConfigurationProxy.get_object_path (S := unit)
    "/net/openvpn/v3/configuration"
    (fun path property => ret (path ++ ":" ++ property)) "work"
  = ret "/net/openvpn/v3/configuration/aliases/work:config_path".
Proof.
  apply (proj2 (proj2 (get_object_path_resolves_aliases_only
                         (S := unit) "/net/openvpn/v3/configuration"
                         (fun path property => ret (path ++ ":" ++ property))))
           "w"%char "ork").
  discriminate.
Defined.

(** * More properties of log events *)

Section LogEvent_more_properties.
Context {helpers : log_helpers}.

(** X19: [Parse] finds the three fields by their keys.  A dictionary that
    holds them among other entries, in any order, is parsed as the record
    of the three fields alone. *)
Theorem Parse_reads_by_key
        (entries : list (string * GVariant)) (g c : N) (msg : string)
        (this : LogEvent) :
  lookup_entry entries "log_group" = Some (GV_uint32 g) ->
  lookup_entry entries "log_category" = Some (GV_uint32 c) ->
  lookup_entry entries "log_message" = Some (GV_string msg) ->
  Parse (GV_dict entries) this = Parse (wire_record g c msg) this.
Proof.
  intros Hg Hc Hm. unfold Parse, g_variant_lookup_value, wire_record.
  rewrite Hg, Hc, Hm. reflexivity.
Qed.

(** X21: the constructors leave nothing of what the storage held.
    [LogEvent()] gives [UNDEFINED] and empty strings, and two events built
    from the same value are equal, whatever was in their storage before and
    whether the constructor returns or throws. *)
Theorem constructors_overwrite_the_storage
        (status : GVariant) (storage1 storage2 : LogEvent) :
  LogEvent_new storage1
  = Done (Returned tt,
          mkLogEvent LogGroup_UNDEFINED "" LogCategory_UNDEFINED "" "") /\
  LogEvent_from status storage1 = LogEvent_from status storage2.
Proof.
  split; reflexivity.
Qed.

(** X22: built from a record with the three fields, a log event is
    complete exactly when the message text holds no NUL character.  If it
    holds one, the constructor throws the [DBusException] "inconsistent
    length". *)
Theorem LogEvent_from_throws_on_NUL
        (g c : N) (msg : string) (storage : LogEvent) :
  (~ In Ascii.zero (characters msg) ->
   exists ev,
     LogEvent_from (wire_record g c msg) storage = Done (Returned tt, ev)
     /\ message ev = msg) /\
  (In Ascii.zero (characters msg) ->
   exists ev,
     LogEvent_from (wire_record g c msg) storage
     = Done (Thrown (DBusException "OpenVPN3SessionProxy"
                       "Failed retrieving log event message text (inconsistent length)"),
             ev)).
Proof.
  rewrite LogEvent_from_computed. split; intros H.
  - eexists. rewrite (c_str_without_NUL _ H), N.eqb_refl.
    split; reflexivity.
  - eexists.
    destruct (N.eqb_spec (N.of_nat (String.length msg))
                (N.of_nat (String.length (c_str msg)))) as [E | E];
      [| reflexivity].
    exfalso. apply Nat2N.inj in E. symmetry in E.
    now apply c_str_full_length in E.
Qed.
End LogEvent_more_properties.

Lemma Parse_reads_by_key_witness :
  Parse (helpers := example_helpers)
    (GV_dict [("log_message", GV_string "up"); ("extra", GV_uint32 1);
              ("log_category", GV_uint32 4); ("log_group", GV_uint32 7)])
    (mkLogEvent (helpers := example_helpers) 0 "" 0 "" "")
  = Parse (helpers := example_helpers) (wire_record 7 4 "up")
      (mkLogEvent (helpers := example_helpers) 0 "" 0 "" "").
Proof.
  apply (Parse_reads_by_key (helpers := example_helpers)
           [("log_message", GV_string "up"); ("extra", GV_uint32 1);
            ("log_category", GV_uint32 4); ("log_group", GV_uint32 7)]
           7 4 "up"); reflexivity.
Defined.

Lemma Parse_out_of_range_keeps_field_witness :
  exists o ev,
    Parse (helpers := example_helpers) (wire_record 42 0 "again")
      (mkLogEvent (helpers := example_helpers) 7 "Client" 4 "INFO" "up")
    = Done (o, ev)
    /\ group ev = 7 /\ group_str ev = "Client"
    /\ category ev = 4 /\ category_str ev = "INFO".
Proof.
  destruct (Parse_out_of_range_keeps_field (helpers := example_helpers)
              42 0 "again"
              (mkLogEvent (helpers := example_helpers) 7 "Client" 4 "INFO" "up"))
    as (o & ev & Hrun & Hgroup & Hcategory).
  exists o, ev. split; [exact Hrun |].
  destruct Hgroup as [Hg Hgs]; [right; vm_compute; discriminate |].
  destruct Hcategory as [Hc Hcs]; [now left |].
  repeat split; assumption.
Defined.

Lemma LogEvent_from_throws_on_NUL_witness :
  (exists ev,
      LogEvent_from (helpers := example_helpers) (wire_record 7 4 "up")
        (mkLogEvent (helpers := example_helpers) 0 "" 0 "" "")
      = Done (Returned tt, ev)
      /\ message ev = "up")
  /\ (exists ev,
         LogEvent_from (helpers := example_helpers)
           (wire_record 7 4 (String "u" (String Ascii.zero "p")))
           (mkLogEvent (helpers := example_helpers) 0 "" 0 "" "")
         = Done (Thrown inconsistent_length, ev)).
Proof.
  split.
  - apply (proj1 (LogEvent_from_throws_on_NUL (helpers := example_helpers)
                    7 4 "up"
                    (mkLogEvent (helpers := example_helpers) 0 "" 0 "" ""))).
    simpl. intros H. repeat (destruct H as [H | H]; [discriminate H |]).
    exact H.
  - apply (proj2 (LogEvent_from_throws_on_NUL (helpers := example_helpers)
                    7 4 (String "u" (String Ascii.zero "p"))
                    (mkLogEvent (helpers := example_helpers) 0 "" 0 "" ""))).
    simpl. right. now left.
Defined.

(** * The uid of a caller, the owner and the public-access flag *)

(** X23: [GetUID] returns the uid the bus daemon reports for the bus name.
    When the query fails it throws a [DBusException] of class name
    "DBusConnectionCreds" whose text names the bus name and ends with the
    raw error of the failure.  It makes the one call
    "GetConnectionUnixUser" and leaves the object unchanged. *)
Theorem GetUID_result {S : Type} (d : daemon) (sender : string) (this : S) :
  calls d (GetUID sender this)
  = [("GetConnectionUnixUser", Some (g_variant_new_s sender),
      d "GetConnectionUnixUser" (Some (g_variant_new_s sender)))] /\
  (forall uid,
      resolves d sender uid ->
      run d (GetUID sender this) = Some (Returned uid, this)) /\
  (forall classname raw,
      d "GetConnectionUnixUser" (Some (g_variant_new_s sender))
      = CallThrew classname raw ->
      run d (GetUID sender this)
      = Some (Thrown (DBusException "DBusConnectionCreds"
                        ("Failed to retrieve UID for bus name '" ++ sender
                         ++ "': " ++ raw)), this)).
Proof.
  split; [apply calls_GetUID |]. rewrite run_GetUID. unfold resolves.
  split; [now intros uid -> | now intros classname raw ->].
Qed.

Lemma GetUID_result_witness :
  run (bus_daemon [(":1.8", 2000)]) (GetUID ":1.8" tt)
  = Some (Returned 2000, tt)
  /\ run (bus_daemon [(":1.8", 2000)]) (GetUID ":1.9" tt)
     = Some (Thrown (DBusException "DBusConnectionCreds"
                       "Failed to retrieve UID for bus name ':1.9': The name has no owner"),
             tt).
Proof.
  split.
  - apply (proj1 (proj2 (GetUID_result (bus_daemon [(":1.8", 2000)])
                           ":1.8" tt)) 2000).
    reflexivity.
  - apply (proj2 (proj2 (GetUID_result (bus_daemon [(":1.8", 2000)])
                           ":1.9" tt)) "DBusProxy" "The name has no owner").
    reflexivity.
Defined.

(** X24: the owner of an object never changes.  After any sequence of
    [GrantAccess], [RevokeAccess] and [SetPublicAccess] calls, [GetOwner]
    returns the uid the object was constructed with. *)
Theorem owner_never_changes (o : uid_t) (ops : list acl_op) :
  GetOwner (apply_ops ops (DBusCredentials_new o))
  = Done (Returned (GV_uint32 o), apply_ops ops (DBusCredentials_new o)).
Proof.
  unfold GetOwner, bind, get, ret. simpl.
  now rewrite apply_ops_owner.
Qed.

(** X25: [SetPublicAccess(true)] opens [CheckACL] to every sender, against
    any bus daemon, and keeps the granted list; setting the flag back
    gives exactly the object there was before, so the checks decide as
    before.  Of two [SetPublicAccess] calls in a row the second decides. *)
Theorem public_access_is_a_switch
        (this : DBusCredentials) (d : daemon) (sender : string)
        (allow_root b1 b2 : bool) :
  run d (CheckACL sender allow_root
           (object_after (SetPublicAccess true this) this))
  = Some (Returned tt, object_after (SetPublicAccess true this) this) /\
  acl_list (object_after (SetPublicAccess true this) this) = acl_list this /\
  object_after
    (SetPublicAccess (acl_public this)
       (object_after (SetPublicAccess b1 this) this))
    (object_after (SetPublicAccess b1 this) this)
  = this /\
  (SetPublicAccess b1 ;; SetPublicAccess b2) this = SetPublicAccess b2 this.
Proof.
  split; [| split; [| split]].
  - unfold CheckACL. now rewrite run_check_acl.
  - reflexivity.
  - now destruct this.
  - reflexivity.
Qed.
